(** * Lab Result Interpreter: classification, catalogs and dispatch

    A shallow embedding of [src/main.py] (the core module: [ResultStatus],
    [ReferenceRange], [TestResult], [LabTest] and its three panels,
    [LabInterpreter]) and the properties its specification states.

    Python values are modelled as follows.
    - Numbers are Python [int]s (unbounded, [Z]) or [float]s (IEEE 754
      binary64, Rocq's primitive floats).  The tables of the source mix both
      ([41] and [13.5]), and the two print differently.
    - [<] and [>] compare numbers by the value they denote: an [int] against
      a [float] exactly, two floats as IEEE 754 prescribes (shown below to be
      the comparison of the primitive floats), and every comparison with
      [nan] is [False].
    - [str] is a string of bytes (UTF-8 for the one non-ASCII unit label).
    - Printing a number into an f-string is [str] of CPython 3.11 and later
      with its default settings: a float prints as its shortest decimal that
      reads back, and an int of more than 4300 digits does not print but
      raises a ValueError ([sys.int_info.default_max_str_digits]).
    - A [dict] literal is an insertion-ordered association list; the result
      cache, only ever accessed by key, is a finite map.
    - A method that mutates [self] takes the object and returns it updated. *)

From Stdlib Require Import ZArith QArith Qround Lia Lqa.
From Stdlib Require Import PrimFloat SpecFloat FloatOps FloatAxioms.
From Stdlib Require Import Ascii String DecimalString.
From stdpp Require Import gmap strings.

Set Warnings "-inexact-float".
Local Open Scope Z_scope.

(** ** Python numbers *)

Module Py.

Inductive num : Type :=
| Int (z : Z)
| Float (f : float).

(** The value a number denotes: a rational, an infinity, or none ([nan]). *)
Inductive xval : Type :=
| XNaN
| XNegInf
| XFin (q : Q)
| XPosInf.

Definition signed (s : bool) (m : positive) : Z :=
  if s then Z.neg m else Z.pos m.

(** [m * 2 ^ e] as a fraction. *)
Definition scale2 (m e : Z) : Q :=
  match e with
  | Z.neg p => Qmake m (2 ^ p)%positive
  | _ => Qmake (m * 2 ^ e) 1
  end.

Definition SF2X (f : spec_float) : xval :=
  match f with
  | S754_zero _ => XFin 0
  | S754_infinity false => XPosInf
  | S754_infinity true => XNegInf
  | S754_nan => XNaN
  | S754_finite s m e => XFin (scale2 (signed s m) e)
  end.

Definition val (n : num) : xval :=
  match n with
  | Int z => XFin (inject_Z z)
  | Float f => SF2X (Prim2SF f)
  end.

Definition Qltb (p q : Q) : bool :=
  match Qcompare p q with Lt => true | _ => false end.

Definition x_ltb (a b : xval) : bool :=
  match a, b with
  | XNaN, _ | _, XNaN => false
  | _, XNegInf => false
  | XNegInf, _ => true
  | XPosInf, _ => false
  | XFin _, XPosInf => true
  | XFin p, XFin q => Qltb p q
  end.

Definition x_leb (a b : xval) : bool :=
  match a, b with
  | XNaN, _ | _, XNaN => false
  | XNegInf, _ => true
  | _, XPosInf => true
  | _, XNegInf => false
  | XPosInf, _ => false
  | XFin p, XFin q => Qle_bool p q
  end.

(** [a < b], [a > b] and [a <= b] of Python. *)
Definition lt (a b : num) : bool := x_ltb (val a) (val b).
Definition gt (a b : num) : bool := x_ltb (val b) (val a).
Definition le (a b : num) : bool := x_leb (val a) (val b).

(** *** Exceptions *)

Inductive exn : Type :=
| ValueError (msg : string)
| KeyError (key : string).

Inductive outcome (A : Type) : Type :=
| Return (a : A)
| Raise (e : exn).

Arguments Return {A} a.
Arguments Raise {A} e.

(** *** [str] of a number *)

Definition pow10 (k : Z) : Q :=
  match k with
  | Z.neg p => Qmake 1 (10 ^ p)%positive
  | _ => Qmake (10 ^ k) 1
  end.

Definition digits_of (n : Z) : string :=
  NilZero.string_of_uint (N.to_uint (Z.to_N n)).

(** An int in decimal, with its sign. *)
Definition int_text (z : Z) : string :=
  NilZero.string_of_int (Z.to_int z).

(** The number of decimal digits of an int, the sign not counted. *)
Definition int_digits (z : Z) : Z :=
  Z.of_nat (String.length (digits_of (Z.abs z))).

(** [sys.int_info.default_max_str_digits] *)
Definition int_max_str_digits : Z := 4300.

(** [str(z)]: the conversion is refused past the digit limit. *)
Definition str_int (z : Z) : outcome string :=
  if int_max_str_digits <? int_digits z then
    Raise (ValueError "Exceeds the limit (4300 digits) for integer string conversion; use sys.set_int_max_str_digits() to increase the limit")
  else Return (int_text z).

(** [floor (log10 (m * 2 ^ e))], from the binary logarithm and one
    correction step either way. *)
Definition floor_log10 (m : positive) (e : Z) : Z :=
  let v := scale2 (Z.pos m) e in
  let est := (Z.log2 (Z.pos m) + e) * 30103 / 100000 in
  if Qltb v (pow10 est) then est - 1
  else if Qle_bool (pow10 (est + 1)) v then est + 1
  else est.

(** The reals that round to the float [m * 2 ^ e] lie between the midpoints
    to its two neighbours; the midpoints themselves do when [m] is even.  The
    lower neighbour is half as far when [m] is the least normal mantissa. *)
Definition rounds_to (m : positive) (e : Z) (q : Q) : bool :=
  let lo := if (Z.pos m =? 2 ^ 52) && (-1074 <? e)
            then scale2 (4 * Z.pos m - 1) (e - 2)
            else scale2 (2 * Z.pos m - 1) (e - 1) in
  let hi := scale2 (2 * Z.pos m + 1) (e - 1) in
  if Z.even (Z.pos m)
  then Qle_bool lo q && Qle_bool q hi
  else Qltb lo q && Qltb q hi.

(** The decimal [c * 10 ^ k] of [n] digits nearest to [m * 2 ^ e], when it
    rounds back to that float. *)
Definition nearest_decimal (m : positive) (e p : Z) (n : Z) : option (Z * Z) :=
  let v := scale2 (Z.pos m) e in
  let k := p - n + 1 in
  let scaled := Qmult v (pow10 (- k)) in
  let d := Qfloor scaled in
  let ok c := rounds_to m e (Qmult (inject_Z c) (pow10 k)) in
  let twice := Qmult (2 # 1) scaled in
  let mid := inject_Z (2 * d + 1) in
  let up := match Qcompare twice mid with
            | Lt => false
            | Gt => true
            | Eq => Z.odd d
            end in
  match ok d, ok (d + 1) with
  | true, true => Some (if up then d + 1 else d, k)
  | true, false => Some (d, k)
  | false, true => Some (d + 1, k)
  | false, false => None
  end.

(** The shortest decimal that rounds to the float: the first precision, of
    1 to 17 digits, at which the nearest decimal does (17 digits always do). *)
Fixpoint shortest_from (m : positive) (e p : Z) (precisions : list Z) : Z * Z :=
  match precisions with
  | [] => (Qfloor (Qmult (scale2 (Z.pos m) e) (pow10 (16 - p))), p - 16)
  | n :: rest =>
      match nearest_decimal m e p n with
      | Some ck => ck
      | None => shortest_from m e p rest
      end
  end.

Definition shortest (m : positive) (e : Z) : Z * Z :=
  shortest_from m e (floor_log10 m e) (seqZ 1 17).

Fixpoint strip_zeros (rev_digits : string) : string :=
  match rev_digits with
  | String "0"%char rest => strip_zeros rest
  | _ => rev_digits
  end.

Fixpoint zeros (n : nat) : string :=
  match n with
  | O => ""
  | S n' => String "0"%char (zeros n')
  end.

(** [repr] of a positive finite float from its digits and the position
    [decpt] of its decimal point: fixed notation for [-4 < decpt <= 16],
    scientific notation with a two-digit exponent otherwise. *)
Definition format_repr (digits : string) (decpt : Z) : string :=
  let n := Z.of_nat (String.length digits) in
  if (decpt <=? -4) || (16 <? decpt) then
    let ex := decpt - 1 in
    let mant := String.substring 0 1 digits +:+
                (if 1 <? n then "." +:+ String.substring 1 (String.length digits - 1) digits
                 else "") in
    let exd := digits_of (Z.abs ex) in
    mant +:+ "e" +:+ (if ex <? 0 then "-" else "+") +:+
    (if Z.abs ex <? 10 then "0" else "") +:+ exd
  else if decpt <=? 0 then
    "0." +:+ zeros (Z.to_nat (- decpt)) +:+ digits
  else if n <=? decpt then
    digits +:+ zeros (Z.to_nat (decpt - n)) +:+ ".0"
  else
    String.substring 0 (Z.to_nat decpt) digits +:+ "." +:+
    String.substring (Z.to_nat decpt) (Z.to_nat (n - decpt)) digits.

Definition str_float (f : float) : string :=
  match Prim2SF f with
  | S754_nan => "nan"
  | S754_infinity s => if s then "-inf" else "inf"
  | S754_zero s => if s then "-0.0" else "0.0"
  | S754_finite s m e =>
      let '(c, k) := shortest m e in
      let all := digits_of c in
      let digits := String.rev (strip_zeros (String.rev all)) in
      (if s then "-" else "") +:+
      format_repr digits (Z.of_nat (String.length all) + k)
  end.

(** [str(n)], which is what an f-string field [{n}] prints. *)
Definition str (n : num) : outcome string :=
  match n with
  | Int z => str_int z
  | Float f => Return (str_float f)
  end.

(** The decimal text of a number, which is what [str] returns when it
    returns. *)
Definition text (n : num) : string :=
  match n with
  | Int z => int_text z
  | Float f => str_float f
  end.

(** [str(n)] returns. *)
Definition prints (n : num) : bool :=
  match str n with
  | Return _ => true
  | Raise _ => false
  end.

(** *** Dictionaries

    A [dict] keeps its keys in insertion order; assigning to a key that is
    present replaces the value where it stands. *)

Abbreviation dict V := (list (string * V)).

Fixpoint dict_get {V : Type} (k : string) (d : dict V) : option V :=
  match d with
  | [] => None
  | (k', v) :: rest => if String.eqb k k' then Some v else dict_get k rest
  end.

(** [k in d] *)
Definition dict_mem {V : Type} (k : string) (d : dict V) : bool :=
  match dict_get k d with Some _ => true | None => false end.

(** [d.get(k, dflt)] *)
Definition dict_get_default {V : Type} (k : string) (dflt : V) (d : dict V) : V :=
  match dict_get k d with Some v => v | None => dflt end.

(** [d[k] = v] *)
Fixpoint dict_set {V : Type} (k : string) (v : V) (d : dict V) : dict V :=
  match d with
  | [] => [(k, v)]
  | (k', v') :: rest =>
      if String.eqb k k' then (k, v) :: rest else (k', v') :: dict_set k v rest
  end.

(** [list(d.keys())] *)
Definition dict_keys {V : Type} (d : dict V) : list string := map fst d.

End Py.

(** ** The status of a result *)

Inductive ResultStatus : Type :=
| NORMAL
| LOW
| HIGH
| CRITICAL_LOW
| CRITICAL_HIGH.

(** [status.value] *)
Definition status_value (s : ResultStatus) : string :=
  match s with
  | NORMAL => "NORMAL"
  | LOW => "LOW"
  | HIGH => "HIGH"
  | CRITICAL_LOW => "CRITICAL_LOW"
  | CRITICAL_HIGH => "CRITICAL_HIGH"
  end.

(** ** Reference ranges *)

Module ReferenceRange.

Record t : Type := new {
  min_value : Py.num;
  max_value : Py.num;
  critical_low : option Py.num;
  critical_high : option Py.num;
  unit : string
}.

Definition get_status (self : t) (value : Py.num) : ResultStatus :=
  if match critical_low self with
     | Some critical => Py.lt value critical
     | None => false
     end
  then CRITICAL_LOW
  else if match critical_high self with
          | Some critical => Py.gt value critical
          | None => false
          end
  then CRITICAL_HIGH
  else if Py.lt value (min_value self) then LOW
  else if Py.gt value (max_value self) then HIGH
  else NORMAL.

End ReferenceRange.

(** ** Results *)

Module TestResult.

Record t : Type := new {
  test_name : string;
  value : Py.num;
  unit : string;
  reference_range : ReferenceRange.t;
  status : ResultStatus;
  interpretation : string;
  clinical_significance : string
}.

End TestResult.

(** ** Panels *)

Module LabTest.

Record t : Type := mk {
  results : gmap string TestResult.t;
  test_name : string;
  reference_ranges : Py.dict ReferenceRange.t;
  interpretations : Py.dict (Py.dict string)
}.

(** [LabTest.__init__] *)
Definition new : t :=
  {| results := ∅;
     test_name := "Base Lab Test";
     reference_ranges := [];
     interpretations := [] |}.

Definition set_results (self : t) (r : gmap string TestResult.t) : t :=
  {| results := r;
     test_name := test_name self;
     reference_ranges := reference_ranges self;
     interpretations := interpretations self |}.

(** The result is built, summary included, before it is cached: when a bound
    of the range does not print, the error leaves the cache as it was. *)
Definition interpret_result (self : t) (test_code : string) (value : Py.num)
  : Py.outcome TestResult.t * t :=
  if negb (Py.dict_mem test_code (reference_ranges self)) then
    (Py.Raise (Py.ValueError ("Unknown test code: " +:+ test_code)), self)
  else
    match Py.dict_get test_code (reference_ranges self) with
    | None => (Py.Raise (Py.KeyError test_code), self)
    | Some ref_range =>
        let status := ReferenceRange.get_status ref_range value in
        let interpretation :=
          Py.dict_get_default (status_value status) "See reference ranges."
            (Py.dict_get_default test_code [] (interpretations self)) in
        match Py.str (ReferenceRange.min_value ref_range) with
        | Py.Raise e => (Py.Raise e, self)
        | Py.Return min_text =>
            match Py.str (ReferenceRange.max_value ref_range) with
            | Py.Raise e => (Py.Raise e, self)
            | Py.Return max_text =>
                let result :=
                  TestResult.new test_code value (ReferenceRange.unit ref_range)
                    ref_range status interpretation
                    ("Normal range: " +:+ min_text +:+ "-" +:+ max_text
                     +:+ " " +:+ ReferenceRange.unit ref_range) in
                (Py.Return result,
                 set_results self (<[test_code := result]> (results self)))
            end
        end
    end.

End LabTest.

(** [CompleteBloodCount.__init__]: the base initialiser, then the tables. *)
Definition CompleteBloodCount : LabTest.t :=
  let self := LabTest.new in
  LabTest.mk (LabTest.results self) "Complete Blood Count (CBC)"
    [ ("WBC", ReferenceRange.new (Py.Float 4.5) (Py.Float 11.0)
                (Some (Py.Float 2.0)) (Some (Py.Float 20.0)) "10^3/µL");
      ("RBC", ReferenceRange.new (Py.Float 4.5) (Py.Float 5.9)
                (Some (Py.Float 2.0)) (Some (Py.Float 7.0)) "10^6/µL");
      ("Hemoglobin", ReferenceRange.new (Py.Float 13.5) (Py.Float 17.5)
                (Some (Py.Float 7.0)) (Some (Py.Float 20.0)) "g/dL");
      ("Hematocrit", ReferenceRange.new (Py.Int 41) (Py.Int 53)
                (Some (Py.Int 20)) (Some (Py.Int 70)) "%");
      ("MCV", ReferenceRange.new (Py.Int 80) (Py.Int 100) None None "fL");
      ("Platelets", ReferenceRange.new (Py.Int 150) (Py.Int 400)
                (Some (Py.Int 50)) (Some (Py.Int 800)) "10^3/µL") ]
    [ ("WBC",
       [ ("HIGH", "Elevated white blood cells may indicate infection, inflammation, or leukemia.");
         ("LOW", "Low white blood cells may indicate bone marrow disorder, autoimmune disease, or medication side effects.") ]);
      ("RBC",
       [ ("HIGH", "Elevated RBC may indicate dehydration, polycythemia, or chronic hypoxia.");
         ("LOW", "Low RBC may indicate anemia, blood loss, or bone marrow failure.") ]);
      ("Hemoglobin",
       [ ("HIGH", "Elevated hemoglobin may indicate dehydration or polycythemia.");
         ("LOW", "Low hemoglobin indicates anemia - check MCV to determine type.") ]);
      ("Hematocrit",
       [ ("HIGH", "Elevated hematocrit may indicate dehydration or polycythemia.");
         ("LOW", "Low hematocrit indicates anemia or blood loss.") ]);
      ("MCV",
       [ ("HIGH", "High MCV (macrocytic anemia) - may indicate B12/folate deficiency or reticulocytosis.");
         ("LOW", "Low MCV (microcytic anemia) - may indicate iron deficiency or thalassemia.") ]);
      ("Platelets",
       [ ("HIGH", "Elevated platelets may indicate inflammation, malignancy, or essential thrombocythemia.");
         ("LOW", "Low platelets (thrombocytopenia) increases bleeding risk and requires investigation.") ]) ].

(** [BasicMetabolicPanel.__init__] *)
Definition BasicMetabolicPanel : LabTest.t :=
  let self := LabTest.new in
  LabTest.mk (LabTest.results self) "Basic Metabolic Panel (BMP)"
    [ ("Sodium", ReferenceRange.new (Py.Int 136) (Py.Int 145)
                (Some (Py.Int 120)) (Some (Py.Int 160)) "mEq/L");
      ("Potassium", ReferenceRange.new (Py.Float 3.5) (Py.Float 5.0)
                (Some (Py.Float 2.8)) (Some (Py.Float 6.0)) "mEq/L");
      ("Chloride", ReferenceRange.new (Py.Int 98) (Py.Int 107) None None "mEq/L");
      ("CO2", ReferenceRange.new (Py.Int 23) (Py.Int 29) None None "mEq/L");
      ("BUN", ReferenceRange.new (Py.Int 7) (Py.Int 20)
                None (Some (Py.Int 100)) "mg/dL");
      ("Creatinine", ReferenceRange.new (Py.Float 0.7) (Py.Float 1.3)
                None (Some (Py.Float 4.0)) "mg/dL");
      ("Glucose", ReferenceRange.new (Py.Int 70) (Py.Int 100)
                (Some (Py.Int 40)) (Some (Py.Int 400)) "mg/dL");
      ("Calcium", ReferenceRange.new (Py.Float 8.5) (Py.Float 10.2)
                (Some (Py.Float 6.5)) (Some (Py.Float 13.0)) "mg/dL") ]
    [ ("Sodium",
       [ ("HIGH", "Hypernatremia - may indicate dehydration or diabetes insipidus.");
         ("LOW", "Hyponatremia - may indicate SIADH, heart/kidney/liver disease, or excess water intake.") ]);
      ("Potassium",
       [ ("HIGH", "Hyperkalemia - dangerous for heart; may indicate kidney failure or excessive supplementation.");
         ("LOW", "Hypokalemia - may cause muscle weakness; check diuretic use and diarrhea.") ]);
      ("Glucose",
       [ ("HIGH", "Hyperglycemia - may indicate diabetes, stress, or prednisone use.");
         ("LOW", "Hypoglycemia - requires immediate evaluation; risk of seizure/coma.") ]);
      ("BUN",
       [ ("HIGH", "Elevated BUN may indicate kidney disease, dehydration, or high protein diet.");
         ("LOW", "Low BUN may indicate liver disease, malnutrition, or overhydration.") ]);
      ("Creatinine",
       [ ("HIGH", "Elevated creatinine indicates reduced kidney function - calculate GFR.");
         ("LOW", "Low creatinine may indicate low muscle mass or liver disease.") ]) ].

(** [LipidPanel.__init__] *)
Definition LipidPanel : LabTest.t :=
  let self := LabTest.new in
  LabTest.mk (LabTest.results self) "Lipid Panel"
    [ ("Total_Cholesterol", ReferenceRange.new (Py.Int 0) (Py.Int 200) None None "mg/dL");
      ("LDL", ReferenceRange.new (Py.Int 0) (Py.Int 100) None None "mg/dL");
      ("HDL", ReferenceRange.new (Py.Int 40) (Py.Int 300) None None "mg/dL");
      ("Triglycerides", ReferenceRange.new (Py.Int 0) (Py.Int 150) None None "mg/dL") ]
    [ ("Total_Cholesterol",
       [ ("HIGH", "High total cholesterol increases cardiovascular disease risk.");
         ("NORMAL", "Optimal cholesterol level for cardiovascular health.") ]);
      ("LDL",
       [ ("HIGH", "High LDL ('bad' cholesterol) increases heart attack and stroke risk.");
         ("NORMAL", "LDL at optimal level reduces cardiovascular disease risk.") ]);
      ("HDL",
       [ ("LOW", "Low HDL ('good' cholesterol) increases cardiovascular disease risk.");
         ("HIGH", "High HDL protects against cardiovascular disease.") ]);
      ("Triglycerides",
       [ ("HIGH", "High triglycerides increase cardiovascular disease risk and pancreatitis risk.");
         ("NORMAL", "Normal triglyceride level reduces cardiovascular risk.") ]) ].

(** ** The interpreter *)

Module LabInterpreter.

Record t : Type := mk {
  tests : Py.dict LabTest.t
}.

(** [LabInterpreter.__init__] *)
Definition new : t :=
  mk [ ("CBC", CompleteBloodCount);
       ("BMP", BasicMetabolicPanel);
       ("LP", LipidPanel) ].

(** The panel object is mutated by [interpret_result]; the interpreter that
    holds it is returned with that panel updated in place. *)
Definition interpret (self : t) (test_type test_code : string) (value : Py.num)
  : Py.outcome TestResult.t * t :=
  if negb (Py.dict_mem test_type (tests self)) then
    (Py.Raise (Py.ValueError ("Unknown test type: " +:+ test_type)), self)
  else
    match Py.dict_get test_type (tests self) with
    | None => (Py.Raise (Py.KeyError test_type), self)
    | Some test =>
        let '(r, test') := LabTest.interpret_result test test_code value in
        (r, mk (Py.dict_set test_type test' (tests self)))
    end.

(** The dict comprehension assigns each panel's key list in turn. *)
Definition get_available_tests (self : t) : Py.dict (list string) :=
  fold_left
    (fun acc '(test_type, test) =>
       Py.dict_set test_type (Py.dict_keys (LabTest.reference_ranges test)) acc)
    (tests self) [].

End LabInterpreter.


(** ** The specification's vocabulary *)

(** The three panels as constructed. *)
Definition panels : list LabTest.t :=
  [CompleteBloodCount; BasicMetabolicPanel; LipidPanel].

(** "critical-low is defined and value < critical-low" *)
Definition below_critical_low (r : ReferenceRange.t) (v : Py.num) : Prop :=
  exists c, ReferenceRange.critical_low r = Some c /\ Py.lt v c = true.

(** "critical-high is defined and value > critical-high" *)
Definition above_critical_high (r : ReferenceRange.t) (v : Py.num) : Prop :=
  exists c, ReferenceRange.critical_high r = Some c /\ Py.gt v c = true.

(** The ordered rule of the specification, one constructor per numbered
    step; a step applies only when no earlier one does. *)
Inductive classify_rule (r : ReferenceRange.t) (v : Py.num) : ResultStatus -> Prop :=
| rule_critical_low :
    below_critical_low r v ->
    classify_rule r v CRITICAL_LOW
| rule_critical_high :
    ~ below_critical_low r v ->
    above_critical_high r v ->
    classify_rule r v CRITICAL_HIGH
| rule_low :
    ~ below_critical_low r v ->
    ~ above_critical_high r v ->
    Py.lt v (ReferenceRange.min_value r) = true ->
    classify_rule r v LOW
| rule_high :
    ~ below_critical_low r v ->
    ~ above_critical_high r v ->
    Py.lt v (ReferenceRange.min_value r) = false ->
    Py.gt v (ReferenceRange.max_value r) = true ->
    classify_rule r v HIGH
| rule_normal :
    ~ below_critical_low r v ->
    ~ above_critical_high r v ->
    Py.lt v (ReferenceRange.min_value r) = false ->
    Py.gt v (ReferenceRange.max_value r) = false ->
    classify_rule r v NORMAL.

(** A range is well ordered when [min_value <= max_value], and
    [critical_low <= min_value] and [max_value <= critical_high] for the
    critical thresholds that are defined. *)
Definition well_ordered (r : ReferenceRange.t) : bool :=
  Py.le (ReferenceRange.min_value r) (ReferenceRange.max_value r)
  && match ReferenceRange.critical_low r with
     | Some c => Py.le c (ReferenceRange.min_value r)
     | None => true
     end
  && match ReferenceRange.critical_high r with
     | Some c => Py.le (ReferenceRange.max_value r) c
     | None => true
     end.

(** The text a panel holds for a test code and a status, if any. *)
Definition text_for (self : LabTest.t) (test_code : string) (s : ResultStatus)
  : option string :=
  match Py.dict_get test_code (LabTest.interpretations self) with
  | Some table => Py.dict_get (status_value s) table
  | None => None
  end.

(** "Normal range: {min}-{max} {unit}" *)
Definition range_summary (r : ReferenceRange.t) : string :=
  "Normal range: " +:+ Py.text (ReferenceRange.min_value r) +:+ "-"
  +:+ Py.text (ReferenceRange.max_value r) +:+ " " +:+ ReferenceRange.unit r.

(** Both bounds of the range print: neither is an int of more than 4300
    digits. *)
Definition printable (r : ReferenceRange.t) : bool :=
  Py.prints (ReferenceRange.min_value r) && Py.prints (ReferenceRange.max_value r).

(** [needle in hay] on strings. *)
Definition occurs (needle hay : string) : bool :=
  match String.index 0 needle hay with
  | Some _ => true
  | None => false
  end.

(** The cached results filed under one test code. *)
Definition cached_under (test_code : string) (cache : gmap string TestResult.t)
  : list (string * TestResult.t) :=
  filter (fun kv => kv.1 = test_code) (map_to_list cache).

(** The interpreters a program can hold: the one [LabInterpreter()] builds,
    and any it becomes after a call of [interpret], whatever the call
    returns or raises. *)
Inductive reachable : LabInterpreter.t -> Prop :=
| reach_new : reachable LabInterpreter.new
| reach_interpret (st : LabInterpreter.t) (test_type test_code : string) (value : Py.num) :
    reachable st ->
    reachable (LabInterpreter.interpret st test_type test_code value).2.

(** What [interpret] never writes: each panel without its result cache. *)
Definition tables (st : LabInterpreter.t) : Py.dict LabTest.t :=
  map (fun kt => (kt.1, LabTest.set_results kt.2 ∅)) (LabInterpreter.tests st).

(** The result the specification describes for a test code whose range is
    [r]: the value, the range and its unit, the status, the text held for
    (test code, status) or else the fallback, and the range summary. *)
Definition expected_result (self : LabTest.t) (test_code : string)
    (r : ReferenceRange.t) (value : Py.num) : TestResult.t :=
  let s := ReferenceRange.get_status r value in
  {| TestResult.test_name := test_code;
     TestResult.value := value;
     TestResult.unit := ReferenceRange.unit r;
     TestResult.reference_range := r;
     TestResult.status := s;
     TestResult.interpretation :=
       match text_for self test_code s with
       | Some text => text
       | None => "See reference ranges."
       end;
     TestResult.clinical_significance := range_summary r |}.

(** [ResultStatus(name)]: the member of the enumeration whose value is
    [name], if there is one. *)
Definition status_named (name : string) : option ResultStatus :=
  if String.eqb name "NORMAL" then Some NORMAL
  else if String.eqb name "LOW" then Some LOW
  else if String.eqb name "HIGH" then Some HIGH
  else if String.eqb name "CRITICAL_LOW" then Some CRITICAL_LOW
  else if String.eqb name "CRITICAL_HIGH" then Some CRITICAL_HIGH
  else None.

Definition same_status (a b : ResultStatus) : bool :=
  match a, b with
  | NORMAL, NORMAL | LOW, LOW | HIGH, HIGH
  | CRITICAL_LOW, CRITICAL_LOW | CRITICAL_HIGH, CRITICAL_HIGH => true
  | _, _ => false
  end.

(** The text keyed by (test code, status): in the table the panel holds for
    the test code, the text of the first entry whose key names the status. *)
Definition text_keyed (self : LabTest.t) (test_code : string) (s : ResultStatus)
  : option string :=
  match Py.dict_get test_code (LabTest.interpretations self) with
  | Some table =>
      match List.find (fun kt => match status_named kt.1 with
                                 | Some s' => same_status s s'
                                 | None => false
                                 end) table with
      | Some kt => Some kt.2
      | None => None
      end
  | None => None
  end.

(** What the specification asks of the result for a value and a test code
    whose range is [r]: it carries the test code, the value, the unit of the
    range and the range itself; its status is the one the ordered rule gives;
    its interpretation is the text keyed by (test code, status), or else the
    fallback; its summary is "Normal range: {min}-{max} {unit}". *)
Definition as_specified (self : LabTest.t) (test_code : string)
    (r : ReferenceRange.t) (value : Py.num) (result : TestResult.t) : Prop :=
  TestResult.test_name result = test_code
  /\ TestResult.value result = value
  /\ TestResult.unit result = ReferenceRange.unit r
  /\ TestResult.reference_range result = r
  /\ classify_rule r value (TestResult.status result)
  /\ TestResult.interpretation result
     = match text_keyed self test_code (TestResult.status result) with
       | Some text => text
       | None => "See reference ranges."
       end
  /\ TestResult.clinical_significance result
     = "Normal range: " +:+ Py.text (ReferenceRange.min_value r) +:+ "-"
       +:+ Py.text (ReferenceRange.max_value r) +:+ " " +:+ ReferenceRange.unit r.

(** No table of the panel has an entry for a critical status. *)
Definition no_critical_text (self : LabTest.t) : bool :=
  forallb (fun kt => negb (Py.dict_mem "CRITICAL_LOW" kt.2)
                     && negb (Py.dict_mem "CRITICAL_HIGH" kt.2))
          (LabTest.interpretations self).

(** CRITICAL_LOW or CRITICAL_HIGH. *)
Definition is_critical (s : ResultStatus) : bool :=
  match s with
  | CRITICAL_LOW | CRITICAL_HIGH => true
  | _ => false
  end.

(** The result cache of a panel of the interpreter. *)
Definition cache_of (st : LabInterpreter.t) (test_type : string)
  : option (gmap string TestResult.t) :=
  LabTest.results <$> Py.dict_get test_type (LabInterpreter.tests st).

(** ** Sample ranges *)

(** Two ranges the constructor accepts: one whose critical-low threshold
    lies inside the normal interval, one whose critical-low threshold is the
    minimum itself. *)
Definition crossed_range : ReferenceRange.t :=
  ReferenceRange.new (Py.Int 5) (Py.Int 10) (Some (Py.Int 7)) None "".

Definition touching_range : ReferenceRange.t :=
  ReferenceRange.new (Py.Int 5) (Py.Int 10) (Some (Py.Int 5)) None "".

(** The hemoglobin range of the blood count panel. *)
Definition hemoglobin_range : ReferenceRange.t :=
  ReferenceRange.new (Py.Float 13.5) (Py.Float 17.5)
    (Some (Py.Float 7.0)) (Some (Py.Float 20.0)) "g/dL".

(** ** Severity *)

(** The statuses from the lowest reading to the highest. *)
Definition severity (s : ResultStatus) : Z :=
  match s with
  | CRITICAL_LOW => 0
  | LOW => 1
  | NORMAL => 2
  | HIGH => 3
  | CRITICAL_HIGH => 4
  end.

(** The same range with no critical threshold, as the tables give it for
    MCV or Chloride. *)
Definition without_criticals (r : ReferenceRange.t) : ReferenceRange.t :=
  ReferenceRange.new (ReferenceRange.min_value r) (ReferenceRange.max_value r)
    None None (ReferenceRange.unit r).

(** A critical status read without its urgency. *)
Definition plain (s : ResultStatus) : ResultStatus :=
  match s with
  | CRITICAL_LOW => LOW
  | CRITICAL_HIGH => HIGH
  | _ => s
  end.

(** [value != value], which holds of [nan] alone. *)
Definition is_nan (value : Py.num) : bool :=
  match Py.val value with
  | Py.XNaN => true
  | _ => false
  end.

(** [test_type] and [test_code] name a range of the interpreter. *)
Definition known (st : LabInterpreter.t) (test_type test_code : string) : bool :=
  match Py.dict_get test_type (LabInterpreter.tests st) with
  | Some test => Py.dict_mem test_code (LabTest.reference_ranges test)
  | None => false
  end.

(** [test_type] and [test_code] name a range of the interpreter, and both
    bounds of that range print. *)
Definition answerable (st : LabInterpreter.t) (test_type test_code : string) : bool :=
  match Py.dict_get test_type (LabInterpreter.tests st) with
  | Some test =>
      match Py.dict_get test_code (LabTest.reference_ranges test) with
      | Some r => printable r
      | None => false
      end
  | None => false
  end.

(** Every range of every panel of the interpreter is printable. *)
Definition all_printable (st : LabInterpreter.t) : bool :=
  forallb (fun kt => forallb (fun kr => printable kr.2)
                             (LabTest.reference_ranges kt.2))
          (LabInterpreter.tests st).

(** The result cached for a test code of a panel, if any. *)
Definition cached (st : LabInterpreter.t) (test_type test_code : string)
  : option TestResult.t :=
  match Py.dict_get test_type (LabInterpreter.tests st) with
  | Some test => LabTest.results test !! test_code
  | None => None
  end.

(** ** The reference checker script

    The script at the head of [src/main.py] asks for a test name and a
    value and prints a verdict.  [report] is the script from the point where
    both replies are read and the second is converted by [float]: it takes
    the first reply as typed and that float, and gives the lines printed.  A
    reply [float] rejects ends the script before anything is printed.

    Each inner dict of the table has the keys low, high and unit, and is a
    record here.  [lower] maps the ASCII capitals.  Python's [lower] maps
    capitals outside ASCII too; the only characters it maps to ASCII letters
    are U+212A (to k) and U+0130 (to i and a combining dot), and no key of
    the table has a k or an i, so the lookup agrees on every reply.  Every
    bound of the table prints, so [report] never takes the branches that
    pass on an error of [str]. *)

Module Checker.

Record entry : Type := mk {
  low : Py.num;
  high : Py.num;
  unit : string
}.

Definition reference_ranges : Py.dict entry :=
  [ ("hb", mk (Py.Float 13.0) (Py.Float 17.0) "g/dL");
    ("wbc", mk (Py.Float 4.0) (Py.Float 11.0) "x10^9/L");
    ("platelets", mk (Py.Int 150) (Py.Int 450) "x10^9/L") ].

Definition lower_char (c : ascii) : ascii :=
  let n := nat_of_ascii c in
  if (65 <=? n)%nat && (n <=? 90)%nat then ascii_of_nat (n + 32) else c.

(** [s.lower()] *)
Fixpoint lower (s : string) : string :=
  match s with
  | EmptyString => EmptyString
  | String c rest => String (lower_char c) (lower rest)
  end.

(** The reply in capitals, as a user may type it. *)
Definition upper_char (c : ascii) : ascii :=
  let n := nat_of_ascii c in
  if (97 <=? n)%nat && (n <=? 122)%nat then ascii_of_nat (n - 32) else c.

Fixpoint upper (s : string) : string :=
  match s with
  | EmptyString => EmptyString
  | String c rest => String (upper_char c) (upper rest)
  end.

(** The lines the script hands to [print], on a standard output that can
    encode them; the dash of the range line is U+2013. *)
Definition report (reply : string) (value : float) : Py.outcome (list string) :=
  let test := lower reply in
  let value := Py.Float value in
  if Py.dict_mem test reference_ranges then
    match Py.dict_get test reference_ranges with
    | None => Py.Raise (Py.KeyError test)
    | Some ref =>
        let verdict :=
          if Py.lt value (low ref) then "Result: LOW"
          else if Py.gt value (high ref) then "Result: HIGH"
          else "Result: NORMAL" in
        match Py.str (low ref) with
        | Py.Raise e => Py.Raise e
        | Py.Return low_text =>
            match Py.str (high ref) with
            | Py.Raise e => Py.Raise e
            | Py.Return high_text =>
                Py.Return
                  [ verdict;
                    "Reference Range: " +:+ low_text +:+ "–"
                    +:+ high_text +:+ " " +:+ unit ref ]
            end
        end
    end
  else Py.Return ["Test not found."].

(** An entry of the script's table as a range with no critical threshold. *)
Definition as_range (ref : entry) : ReferenceRange.t :=
  ReferenceRange.new (low ref) (high ref) None None (unit ref).

End Checker.

(** * Properties *)

(** ** The order on Python numbers *)

Section Order.

Local Open Scope Q_scope.

Lemma Qltb_lt (p q : Q) : Py.Qltb p q = true <-> p < q.
Proof.
  unfold Py.Qltb. rewrite Qlt_alt.
  destruct (p ?= q); split; congruence.
Qed.

Lemma Qltb_ge (p q : Q) : Py.Qltb p q = false <-> q <= p.
Proof.
  rewrite <- not_true_iff_false, Qltb_lt. split.
  - apply Qnot_lt_le.
  - apply Qle_not_lt.
Qed.

(** Both comparisons are read off the values; a tactic turns a goal on
    [xval]s into linear arithmetic on rationals. *)
Ltac order_cases :=
  repeat match goal with
         | x : Py.xval |- _ => destruct x
         end;
  simpl in *; try congruence;
  repeat match goal with
         | H : Py.Qltb _ _ = true |- _ => apply Qltb_lt in H
         | H : Qle_bool _ _ = true |- _ => apply Qle_bool_iff in H
         end;
  try match goal with
      | |- Py.Qltb _ _ = true => apply Qltb_lt
      | |- Py.Qltb _ _ = false => apply Qltb_ge
      | |- Qle_bool _ _ = true => apply Qle_bool_iff
      end;
  try lra.

Lemma x_ltb_irrefl (a : Py.xval) : Py.x_ltb a a = false.
Proof. order_cases. Qed.

Lemma x_leb_not_ltb (a b : Py.xval) :
  Py.x_leb a b = true -> Py.x_ltb b a = false.
Proof. intros H. order_cases. Qed.

Lemma x_ltb_leb (a b : Py.xval) :
  Py.x_ltb a b = true -> Py.x_leb a b = true.
Proof. intros H. order_cases. Qed.

Lemma x_leb_trans (a b c : Py.xval) :
  Py.x_leb a b = true -> Py.x_leb b c = true -> Py.x_leb a c = true.
Proof. intros H1 H2. order_cases. Qed.

Lemma x_leb_ltb_trans (a b c : Py.xval) :
  Py.x_leb a b = true -> Py.x_ltb b c = true -> Py.x_ltb a c = true.
Proof. intros H1 H2. order_cases. Qed.

Lemma x_ltb_leb_trans (a b c : Py.xval) :
  Py.x_ltb a b = true -> Py.x_leb b c = true -> Py.x_ltb a c = true.
Proof. intros H1 H2. order_cases. Qed.

Lemma x_leb_total (a b : Py.xval) :
  Py.x_leb a a = true -> Py.x_leb b b = true ->
  Py.x_ltb a b = false -> Py.x_leb b a = true.
Proof.
  intros Ha Hb H. destruct a, b; simpl in *; try congruence.
  apply Qltb_ge in H. now apply Qle_bool_iff.
Qed.

Lemma x_leb_refl_l (a b : Py.xval) : Py.x_leb a b = true -> Py.x_leb a a = true.
Proof. intros H. order_cases. Qed.

Lemma x_leb_refl_r (a b : Py.xval) : Py.x_leb a b = true -> Py.x_leb b b = true.
Proof. intros H. order_cases. Qed.

Lemma x_nan_unordered (b : Py.xval) :
  Py.x_ltb Py.XNaN b = false /\ Py.x_ltb b Py.XNaN = false.
Proof. now destruct b. Qed.

End Order.

Lemma py_lt_irrefl (a : Py.num) : Py.lt a a = false.
Proof. apply x_ltb_irrefl. Qed.

Lemma py_gt_irrefl (a : Py.num) : Py.gt a a = false.
Proof. apply x_ltb_irrefl. Qed.

Lemma py_le_not_gt (a b : Py.num) : Py.le a b = true -> Py.gt a b = false.
Proof. apply x_leb_not_ltb. Qed.

Lemma py_le_not_lt (a b : Py.num) : Py.le a b = true -> Py.lt b a = false.
Proof. apply x_leb_not_ltb. Qed.

Lemma py_le_trans (a b c : Py.num) :
  Py.le a b = true -> Py.le b c = true -> Py.le a c = true.
Proof. apply x_leb_trans. Qed.

Lemma py_le_gt_not_lt (a b c : Py.num) :
  Py.le a b = true -> Py.gt c b = true -> Py.lt c a = false.
Proof.
  intros Hab Hbc. unfold Py.gt in Hbc. unfold Py.lt.
  apply x_leb_not_ltb, x_ltb_leb. exact (x_leb_ltb_trans _ _ _ Hab Hbc).
Qed.

(** ** Floats against the IEEE 754 specification *)

Section IEEE.

Local Open Scope Z_scope.

Lemma digits2_pos_size (m : positive) : digits2_pos m = Pos.size m.
Proof. induction m; simpl; congruence. Qed.

(** What validity says of a finite binary64 float [m * 2 ^ e]. *)
Lemma valid_finite_bounds (s : bool) (m : positive) (e : Z) :
  valid_binary (S754_finite s m e) = true ->
  -1074 <= e /\ Z.pos m < 2 ^ 53 /\ (-1074 < e -> 2 ^ 52 <= Z.pos m).
Proof.
  unfold SpecFloat.valid_binary, bounded, canonical_mantissa, fexp, SpecFloat.emin.
  rewrite digits2_pos_size. intros H.
  apply andb_prop in H as [H _]. apply Z.eqb_eq in H.
  change prec with 53 in H. change emax with 1024 in H.
  pose proof (Pos.size_gt m) as Hgt. pose proof (Pos.size_le m) as Hle.
  apply Pos2Z.pos_lt_pos in Hgt. apply Pos2Z.pos_le_pos in Hle.
  rewrite Pos2Z.inj_pow in Hgt, Hle. rewrite Pos2Z.inj_xO in Hle.
  set (d := Z.pos (Pos.size m)) in *.
  assert (0 < d) by (unfold d; lia).
  split; [lia|]. split.
  - assert (d <= 53) by lia.
    apply Z.lt_le_trans with (2 ^ d); [exact Hgt|].
    apply Z.pow_le_mono_r; lia.
  - intros He. assert (d = 53) as Hd by lia. rewrite Hd in Hle.
    change (2 ^ 53) with (2 * 2 ^ 52) in Hle. lia.
Qed.

(** Above a common lower bound [- k] of the exponents, values are fractions
    over one denominator. *)
Lemma scale2_common (k m e : Z) :
  0 <= k -> - k <= e ->
  (Py.scale2 m e == Qmake (m * 2 ^ (e + k)) (Z.to_pos (2 ^ k)))%Q.
Proof.
  intros Hk He. unfold Py.scale2, Qeq.
  assert (0 < 2 ^ k) as Hpos by (apply Z.pow_pos_nonneg; lia).
  destruct e as [|p|p]; cbn [Qnum Qden]; rewrite Z2Pos.id by exact Hpos.
  - rewrite Z.add_0_l. lia.
  - rewrite Z.pow_add_r by lia. lia.
  - rewrite Pos2Z.inj_pow.
    replace k with ((Z.neg p + k) + Z.pos p) at 1 by lia.
    rewrite Z.pow_add_r by lia. lia.
Qed.

Lemma scale2_compare (k m1 e1 m2 e2 : Z) :
  0 <= k -> - k <= e1 -> - k <= e2 ->
  (Py.scale2 m1 e1 ?= Py.scale2 m2 e2)%Q
  = (m1 * 2 ^ (e1 + k) ?= m2 * 2 ^ (e2 + k)).
Proof.
  intros Hk H1 H2.
  rewrite (scale2_common k m1 e1), (scale2_common k m2 e2) by assumption.
  unfold Qcompare. cbn [Qnum Qden].
  symmetry. apply Zmult_compare_compat_r. lia.
Qed.

Lemma finite_compare (s1 s2 : bool) (m1 m2 : positive) (e1 e2 : Z) (c : comparison) :
  valid_binary (S754_finite s1 m1 e1) = true ->
  valid_binary (S754_finite s2 m2 e2) = true ->
  SFcompare (S754_finite s1 m1 e1) (S754_finite s2 m2 e2) = Some c ->
  (Py.scale2 (Py.signed s1 m1) e1 ?= Py.scale2 (Py.signed s2 m2) e2)%Q = c.
Proof.
  intros V1 V2 H.
  apply valid_finite_bounds in V1 as (He1 & Hm1 & Hn1).
  apply valid_finite_bounds in V2 as (He2 & Hm2 & Hn2).
  rewrite (scale2_compare 1074) by lia.
  assert (0 < 2 ^ (e1 + 1074)) as P1 by (apply Z.pow_pos_nonneg; lia).
  assert (0 < 2 ^ (e2 + 1074)) as P2 by (apply Z.pow_pos_nonneg; lia).
  assert (e1 < e2 -> Z.pos m1 * 2 ^ (e1 + 1074) < Z.pos m2 * 2 ^ (e2 + 1074)) as Hlt.
  { intros Hlt. specialize (Hn2 ltac:(lia)).
    replace (e2 + 1074) with ((e1 + 1074) + (e2 - e1)) by lia.
    rewrite (Z.pow_add_r 2 (e1 + 1074) (e2 - e1)) by lia.
    assert (2 ^ 1 <= 2 ^ (e2 - e1)) as Hd by (apply Z.pow_le_mono_r; lia).
    change (2 ^ 1) with 2 in Hd. change (2 ^ 53) with (2 * 2 ^ 52) in Hm1.
    set (a := 2 ^ (e1 + 1074)) in *. set (d := 2 ^ (e2 - e1)) in *.
    set (t := 2 ^ 52) in *.
    assert (Z.pos m1 < Z.pos m2 * d) by nia.
    rewrite (Z.mul_comm a d), Z.mul_assoc.
    apply Z.mul_lt_mono_pos_r; assumption. }
  assert (e2 < e1 -> Z.pos m2 * 2 ^ (e2 + 1074) < Z.pos m1 * 2 ^ (e1 + 1074)) as Hgt.
  { intros Hgt. specialize (Hn1 ltac:(lia)).
    replace (e1 + 1074) with ((e2 + 1074) + (e1 - e2)) by lia.
    rewrite (Z.pow_add_r 2 (e2 + 1074) (e1 - e2)) by lia.
    assert (2 ^ 1 <= 2 ^ (e1 - e2)) as Hd by (apply Z.pow_le_mono_r; lia).
    change (2 ^ 1) with 2 in Hd. change (2 ^ 53) with (2 * 2 ^ 52) in Hm2.
    set (a := 2 ^ (e2 + 1074)) in *. set (d := 2 ^ (e1 - e2)) in *.
    set (t := 2 ^ 52) in *.
    assert (Z.pos m2 < Z.pos m1 * d) by nia.
    rewrite (Z.mul_comm a d), Z.mul_assoc.
    apply Z.mul_lt_mono_pos_r; assumption. }
  simpl in H. injection H as <-.
  destruct s1, s2; simpl Py.signed;
    destruct (Z.compare_spec e1 e2) as [E|L|G];
    try subst e2;
    try specialize (Hlt L); try specialize (Hgt G);
    try destruct (Pos.compare_spec m1 m2) as [Em|Lm|Gm];
    try subst m2;
    change (Pos.compare_cont Eq ?a ?b) with (Pos.compare a b);
    rewrite ?Pos.compare_refl;
    try (apply Pos.compare_lt_iff in Lm as Lm'; rewrite Lm');
    try (apply Pos.compare_gt_iff in Gm as Gm'; rewrite Gm');
    cbn [CompOpp];
    match goal with
    | |- _ = Lt => apply Z.compare_lt_iff
    | |- _ = Gt => apply Z.compare_gt_iff
    | |- _ = Eq => apply Z.compare_eq_iff
    end; nia.
Qed.

Lemma scale2_compare_0_l (m e : Z) : (0 ?= Py.scale2 m e)%Q = (0 ?= m).
Proof.
  unfold Py.scale2, Qcompare.
  assert (0 <= e -> 0 < 2 ^ e) as Hpos by (intros; apply Z.pow_pos_nonneg; lia).
  destruct e as [|p|p]; cbn [Qnum Qden];
    try specialize (Hpos ltac:(lia));
    destruct (Z.compare_spec 0 m) as [E|L|G];
    match goal with
    | |- _ = Lt => apply Z.compare_lt_iff
    | |- _ = Gt => apply Z.compare_gt_iff
    | |- _ = Eq => apply Z.compare_eq_iff
    end; nia.
Qed.

Lemma scale2_compare_0_r (m e : Z) : (Py.scale2 m e ?= 0)%Q = (m ?= 0).
Proof.
  rewrite <- Qcompare_antisym, scale2_compare_0_l. symmetry. apply Z.compare_antisym.
Qed.

Lemma Qle_bool_compare (p q : Q) :
  Qle_bool p q = match (p ?= q)%Q with Gt => false | _ => true end.
Proof.
  destruct (Qcompare_spec p q) as [E|L|G].
  - apply Qle_bool_iff. rewrite E. apply Qle_refl.
  - apply Qle_bool_iff, Qlt_le_weak, L.
  - apply not_true_iff_false. rewrite Qle_bool_iff. now apply Qlt_not_le.
Qed.

(** On valid floats the comparison of the denoted values is the comparison
    of the IEEE 754 specification. *)
Lemma SF2X_compare (x y : spec_float) :
  valid_binary x = true -> valid_binary y = true ->
  Py.x_ltb (Py.SF2X x) (Py.SF2X y) = SFltb x y
  /\ Py.x_leb (Py.SF2X x) (Py.SF2X y) = SFleb x y.
Proof.
  intros Vx Vy. unfold SFltb, SFleb.
  destruct x as [sx|sx| |sx mx ex], y as [sy|sy| |sy my ey];
    try (destruct sx); try (destruct sy); try (split; reflexivity);
    cbn [Py.SF2X Py.x_ltb Py.x_leb]; unfold Py.Qltb; rewrite Qle_bool_compare.
  all: try (rewrite scale2_compare_0_l; split; reflexivity).
  all: try (rewrite scale2_compare_0_r; split; reflexivity).
  all: destruct (SFcompare _ _) as [c|] eqn:C; [|discriminate C].
  all: rewrite (finite_compare _ _ _ _ _ _ c Vx Vy C); now destruct c.
Qed.

End IEEE.

(** [<], [>] and [<=] on two floats are the comparisons of the hardware. *)
Theorem lt_float_ieee (f g : float) :
  Py.lt (Py.Float f) (Py.Float g) = (f <? g)%float.
Proof.
  rewrite ltb_spec. apply SF2X_compare; apply Prim2SF_valid.
Qed.

Theorem gt_float_ieee (f g : float) :
  Py.gt (Py.Float f) (Py.Float g) = (g <? f)%float.
Proof. apply lt_float_ieee. Qed.

Theorem le_float_ieee (f g : float) :
  Py.le (Py.Float f) (Py.Float g) = (f <=? g)%float.
Proof.
  rewrite leb_spec. apply SF2X_compare; apply Prim2SF_valid.
Qed.

(** ** Printing numbers *)

(** [str] on numbers of the tables and on some that need every digit or
    scientific notation. *)
Example str_samples :
  map Py.str [ Py.Float 13.5; Py.Float 11.0; Py.Float 5.9; Py.Float 0.1;
               Py.Float 0.30000000000000004; Py.Float 1e16; Py.Float 1e-5;
               Py.Float (-2.5); Py.Float infinity; Py.Int 41; Py.Int (-7) ]
  = map Py.Return
      [ "13.5"; "11.0"; "5.9"; "0.1"; "0.30000000000000004"; "1e+16"; "1e-05";
        "-2.5"; "inf"; "41"; "-7" ].
Proof. vm_compute. reflexivity. Qed.

Lemma prints_str (n : Py.num) :
  Py.prints n = true -> Py.str n = Py.Return (Py.text n).
Proof.
  unfold Py.prints. destruct n as [z|f]; simpl; [|reflexivity].
  unfold Py.str_int. now destruct (Py.int_max_str_digits <? Py.int_digits z).
Qed.

Lemma not_prints_str (n : Py.num) :
  Py.prints n = false -> exists msg, Py.str n = Py.Raise (Py.ValueError msg).
Proof.
  unfold Py.prints. destruct n as [z|f]; simpl; [|discriminate].
  unfold Py.str_int. destruct (Py.int_max_str_digits <? Py.int_digits z);
    [eauto | discriminate].
Qed.

(** Floats always print. *)
Lemma float_prints (f : float) : Py.prints (Py.Float f) = true.
Proof. reflexivity. Qed.

(** ** Classification *)

Lemma below_critical_low_iff (r : ReferenceRange.t) (v : Py.num) :
  below_critical_low r v <->
  match ReferenceRange.critical_low r with
  | Some c => Py.lt v c
  | None => false
  end = true.
Proof.
  unfold below_critical_low. split.
  - intros (c & -> & H). exact H.
  - destruct (ReferenceRange.critical_low r) as [c|]; [eauto | discriminate].
Qed.

Lemma above_critical_high_iff (r : ReferenceRange.t) (v : Py.num) :
  above_critical_high r v <->
  match ReferenceRange.critical_high r with
  | Some c => Py.gt v c
  | None => false
  end = true.
Proof.
  unfold above_critical_high. split.
  - intros (c & -> & H). exact H.
  - destruct (ReferenceRange.critical_high r) as [c|]; [eauto | discriminate].
Qed.

Lemma classify_rule_get_status (r : ReferenceRange.t) (v : Py.num) :
  classify_rule r v (ReferenceRange.get_status r v).
Proof.
  unfold ReferenceRange.get_status.
  destruct (match ReferenceRange.critical_low r with
            | Some c => Py.lt v c | None => false end) eqn:Hlow.
  { apply rule_critical_low, below_critical_low_iff, Hlow. }
  assert (~ below_critical_low r v) as Nlow
    by (rewrite below_critical_low_iff; congruence).
  destruct (match ReferenceRange.critical_high r with
            | Some c => Py.gt v c | None => false end) eqn:Hhigh.
  { apply rule_critical_high; [exact Nlow|]. apply above_critical_high_iff, Hhigh. }
  assert (~ above_critical_high r v) as Nhigh
    by (rewrite above_critical_high_iff; congruence).
  destruct (Py.lt v (ReferenceRange.min_value r)) eqn:Hmin.
  { now apply rule_low. }
  destruct (Py.gt v (ReferenceRange.max_value r)) eqn:Hmax.
  - now apply rule_high.
  - now apply rule_normal.
Qed.

Lemma classify_rule_functional (r : ReferenceRange.t) (v : Py.num) (s s' : ResultStatus) :
  classify_rule r v s -> classify_rule r v s' -> s = s'.
Proof.
  intros H H'; destruct H; destruct H'; try reflexivity;
    solve [ contradiction | congruence ].
Qed.

(** C1. For every reference range and every number, [get_status] returns the
    status the ordered first-match-wins rule gives, and no other:
    CRITICAL_LOW when critical-low is defined and the value is below it;
    else CRITICAL_HIGH when critical-high is defined and the value is above
    it; else LOW below the minimum; else HIGH above the maximum; else
    NORMAL.  The status is a function of the range and the value alone. *)
Theorem get_status_first_match_wins (r : ReferenceRange.t) (v : Py.num) (s : ResultStatus) :
  ReferenceRange.get_status r v = s <-> classify_rule r v s.
Proof.
  split.
  - intros <-. apply classify_rule_get_status.
  - intros H. exact (classify_rule_functional r v _ _ (classify_rule_get_status r v) H).
Qed.

(** The conditions [well_ordered] packs, one by one. *)
Lemma well_ordered_inv (r : ReferenceRange.t) :
  well_ordered r = true ->
  Py.le (ReferenceRange.min_value r) (ReferenceRange.max_value r) = true
  /\ (forall c, ReferenceRange.critical_low r = Some c ->
        Py.le c (ReferenceRange.min_value r) = true)
  /\ (forall c, ReferenceRange.critical_high r = Some c ->
        Py.le (ReferenceRange.max_value r) c = true).
Proof.
  unfold well_ordered. intros H.
  apply andb_prop in H as [H Hhigh]. apply andb_prop in H as [Hmm Hlow].
  repeat split; [exact Hmm | |].
  - intros c E. now rewrite E in Hlow.
  - intros c E. now rewrite E in Hhigh.
Qed.

(** C2, as stated, fails: the minimum of [crossed_range] is CRITICAL_LOW, not
    NORMAL; and in the well-ordered [touching_range] the critical-low
    threshold, equal to the minimum, is NORMAL, not LOW. *)
Lemma boundary_not_always_normal :
  ReferenceRange.get_status crossed_range (ReferenceRange.min_value crossed_range)
  = CRITICAL_LOW
  /\ well_ordered touching_range = true
  /\ ReferenceRange.critical_low touching_range = Some (Py.Int 5)
  /\ ReferenceRange.get_status touching_range (Py.Int 5) = NORMAL.
Proof. repeat split; reflexivity. Qed.

(** C2, amended. For every reference range, every value below a defined
    critical-low threshold is CRITICAL_LOW.  For every well-ordered range
    (minimum <= maximum, critical-low <= minimum and maximum <= critical-high
    where defined): the minimum and the maximum are NORMAL; critical-low
    itself is LOW provided it is strictly below the minimum; every value
    above a defined critical-high threshold is CRITICAL_HIGH, and
    critical-high itself is HIGH provided it is strictly above the maximum. *)
Theorem boundaries_of_well_ordered_range :
  (forall (r : ReferenceRange.t) (c v : Py.num),
     ReferenceRange.critical_low r = Some c ->
     Py.lt v c = true ->
     ReferenceRange.get_status r v = CRITICAL_LOW)
  /\ (forall r : ReferenceRange.t,
        well_ordered r = true ->
        ReferenceRange.get_status r (ReferenceRange.min_value r) = NORMAL
        /\ ReferenceRange.get_status r (ReferenceRange.max_value r) = NORMAL
        /\ (forall c, ReferenceRange.critical_low r = Some c ->
              Py.lt c (ReferenceRange.min_value r) = true ->
              ReferenceRange.get_status r c = LOW)
        /\ (forall c, ReferenceRange.critical_high r = Some c ->
              (Py.gt c (ReferenceRange.max_value r) = true ->
               ReferenceRange.get_status r c = HIGH)
              /\ (forall v, Py.gt v c = true ->
                    ReferenceRange.get_status r v = CRITICAL_HIGH))).
Proof.
  split.
  { intros r c v E Hv. unfold ReferenceRange.get_status. now rewrite E, Hv. }
  intros r W. apply well_ordered_inv in W as (Hmm & Hlow & Hhigh).
  destruct r as [lo hi cl ch u]; simpl in *.
  assert (forall c, cl = Some c -> Py.le c hi = true) as Hlow'
    by (intros c E; exact (py_le_trans _ _ _ (Hlow c E) Hmm)).
  assert (forall c, ch = Some c -> Py.le lo c = true) as Hhigh'
    by (intros c E; exact (py_le_trans _ _ _ Hmm (Hhigh c E))).
  assert (forall c c', cl = Some c -> ch = Some c' -> Py.le c c' = true) as Hcc
    by (intros c c' E E'; exact (py_le_trans _ _ _ (Hlow c E) (Hhigh' c' E'))).
  unfold ReferenceRange.get_status; simpl.
  split; [|split; [|split]].
  - destruct cl as [c|]; [rewrite (py_le_not_lt _ _ (Hlow c eq_refl))|];
      (destruct ch as [c'|]; [rewrite (py_le_not_gt _ _ (Hhigh' c' eq_refl))|]);
      now rewrite py_lt_irrefl, (py_le_not_gt _ _ Hmm).
  - destruct cl as [c|]; [rewrite (py_le_not_lt _ _ (Hlow' c eq_refl))|];
      (destruct ch as [c'|]; [rewrite (py_le_not_gt _ _ (Hhigh c' eq_refl))|]);
      now rewrite (py_le_not_lt _ _ Hmm), py_gt_irrefl.
  - intros c E Hc. rewrite E, py_lt_irrefl.
    destruct ch as [c'|]; [rewrite (py_le_not_gt _ _ (Hcc c c' E eq_refl))|];
      now rewrite Hc.
  - intros c E. rewrite E. split.
    + intros Hc. rewrite py_gt_irrefl.
      destruct cl as [c'|]; [rewrite (py_le_not_lt _ _ (Hcc c' c eq_refl E))|];
        now rewrite (py_le_not_lt _ _ (Hhigh' c E)), Hc.
    + intros v Hv. rewrite Hv.
      destruct cl as [c'|]; [|reflexivity].
      now rewrite (py_le_gt_not_lt _ _ _ (Hcc c' c eq_refl E) Hv).
Qed.

(** The theorem at the hemoglobin range of the blood count panel. *)
Lemma boundaries_of_hemoglobin_range :
  well_ordered hemoglobin_range = true
  /\ ReferenceRange.get_status hemoglobin_range (Py.Float 13.5) = NORMAL
  /\ ReferenceRange.get_status hemoglobin_range (Py.Float 17.5) = NORMAL
  /\ ReferenceRange.get_status hemoglobin_range (Py.Float 7.0) = LOW
  /\ ReferenceRange.get_status hemoglobin_range (Py.Float 6.0) = CRITICAL_LOW
  /\ ReferenceRange.get_status hemoglobin_range (Py.Float 20.0) = HIGH
  /\ ReferenceRange.get_status hemoglobin_range (Py.Float 20.5) = CRITICAL_HIGH.
Proof.
  split; [reflexivity|].
  destruct boundaries_of_well_ordered_range as [Hbelow Hwell].
  destruct (Hwell hemoglobin_range eq_refl) as (Hmin & Hmax & Hlow & Hhigh).
  destruct (Hhigh _ eq_refl) as [Hat Habove].
  exact (conj Hmin (conj Hmax (conj (Hlow _ eq_refl eq_refl)
           (conj (Hbelow hemoglobin_range _ (Py.Float 6.0) eq_refl eq_refl)
              (conj (Hat eq_refl) (Habove (Py.Float 20.5) eq_refl)))))).
Defined.

(** ** The shipped tables *)

(** C9. Every reference range of the three panels is well ordered: its
    minimum is at most its maximum, its critical-low threshold, when
    defined, at most the minimum, and its critical-high threshold, when
    defined, at least the maximum. *)
Theorem shipped_ranges_well_ordered :
  Forall (fun panel =>
            Forall (fun kr => well_ordered kr.2 = true)
                   (LabTest.reference_ranges panel))
         panels.
Proof.
  assert (forallb (fun panel =>
            forallb (fun kr => well_ordered kr.2) (LabTest.reference_ranges panel))
            panels = true) as H by (vm_compute; reflexivity).
  apply List.Forall_forall. intros panel Hp.
  apply List.Forall_forall. intros kr Hk.
  rewrite List.forallb_forall in H. specialize (H panel Hp).
  rewrite List.forallb_forall in H. exact (H kr Hk).
Qed.

(** C8. In each of the three panels as constructed, every test code that
    is a key of the interpretation table is a key of the reference-range
    mapping.  The converse is not required, and does not hold: the metabolic
    panel has a range for Chloride and no interpretation table for it. *)
Theorem interpretation_codes_have_ranges :
  Forall (fun panel =>
            Py.dict_keys (LabTest.interpretations panel)
            ⊆ Py.dict_keys (LabTest.reference_ranges panel))
         panels
  /\ "Chloride" ∈ Py.dict_keys (LabTest.reference_ranges BasicMetabolicPanel)
  /\ "Chloride" ∉ Py.dict_keys (LabTest.interpretations BasicMetabolicPanel).
Proof.
  split; [|split]; compute_done.
Qed.

(** ** Dictionaries *)

Section Dict.

Context {V : Type}.
Implicit Types (k : string) (v : V) (d : Py.dict V).

Lemma dict_mem_false_get k d : Py.dict_mem k d = false -> Py.dict_get k d = None.
Proof. unfold Py.dict_mem. now destruct (Py.dict_get k d). Qed.

Lemma dict_get_mem k v d : Py.dict_get k d = Some v -> Py.dict_mem k d = true.
Proof. unfold Py.dict_mem. now intros ->. Qed.

Lemma dict_get_set_eq k v d : Py.dict_get k (Py.dict_set k v d) = Some v.
Proof.
  induction d as [|[k' v'] d IH]; simpl.
  - now rewrite String.eqb_refl.
  - destruct (String.eqb k k') eqn:E; simpl.
    + now rewrite String.eqb_refl.
    + now rewrite E.
Qed.

Lemma dict_get_set_ne k k' v d :
  k <> k' -> Py.dict_get k' (Py.dict_set k v d) = Py.dict_get k' d.
Proof.
  intros Hne. induction d as [|[k0 v0] d IH]; simpl.
  - destruct (String.eqb_spec k' k) as [->|_]; [contradiction | reflexivity].
  - destruct (String.eqb_spec k k0) as [->|_]; simpl.
    + destruct (String.eqb_spec k' k0) as [->|_]; [contradiction | reflexivity].
    + now rewrite IH.
Qed.

Lemma dict_set_get_same k v d : Py.dict_get k d = Some v -> Py.dict_set k v d = d.
Proof.
  induction d as [|[k' v'] d IH]; simpl; [discriminate|].
  destruct (String.eqb_spec k k') as [->|_].
  - now intros [= ->].
  - intros H. now rewrite IH.
Qed.

Lemma dict_get_In k v d : Py.dict_get k d = Some v -> In (k, v) d.
Proof.
  induction d as [|[k' v'] d IH]; simpl; [discriminate|].
  destruct (String.eqb_spec k k') as [->|_].
  - intros [= ->]. now left.
  - intros H. right. now apply IH.
Qed.

End Dict.

Lemma dict_get_map {V W : Type} (f : V -> W) (k : string) (d : Py.dict V) :
  Py.dict_get k (map (fun kv => (kv.1, f kv.2)) d) = f <$> Py.dict_get k d.
Proof.
  induction d as [|[k' v'] d IH]; simpl; [reflexivity|].
  now destruct (String.eqb k k').
Qed.

Lemma dict_set_map {V W : Type} (f : V -> W) (k : string) (v : V) (d : Py.dict V) :
  map (fun kv => (kv.1, f kv.2)) (Py.dict_set k v d)
  = Py.dict_set k (f v) (map (fun kv => (kv.1, f kv.2)) d).
Proof.
  induction d as [|[k' v'] d IH]; simpl; [reflexivity|].
  destruct (String.eqb k k'); simpl; [reflexivity | now rewrite IH].
Qed.

(** ** One panel *)

Lemma interpret_result_unknown (self : LabTest.t) (test_code : string) (value : Py.num) :
  Py.dict_mem test_code (LabTest.reference_ranges self) = false ->
  LabTest.interpret_result self test_code value
  = (Py.Raise (Py.ValueError ("Unknown test code: " +:+ test_code)), self).
Proof. intros H. unfold LabTest.interpret_result. now rewrite H. Qed.

Lemma interpret_result_known (self : LabTest.t) (test_code : string)
    (value : Py.num) (r : ReferenceRange.t) :
  Py.dict_get test_code (LabTest.reference_ranges self) = Some r ->
  printable r = true ->
  LabTest.interpret_result self test_code value
  = (Py.Return (expected_result self test_code r value),
     LabTest.set_results self
       (<[test_code := expected_result self test_code r value]>
          (LabTest.results self))).
Proof.
  intros H Hp. apply andb_prop in Hp as [Hmin Hmax].
  unfold LabTest.interpret_result.
  rewrite (dict_get_mem _ _ _ H), H. cbn [negb].
  rewrite (prints_str _ Hmin), (prints_str _ Hmax).
  unfold expected_result, text_for, range_summary, Py.dict_get_default.
  destruct (Py.dict_get test_code (LabTest.interpretations self)); reflexivity.
Qed.

(** A known code whose range has a bound that does not print: the summary
    cannot be built, and the call raises before it writes the cache. *)
Lemma interpret_result_unprintable (self : LabTest.t) (test_code : string)
    (value : Py.num) (r : ReferenceRange.t) :
  Py.dict_get test_code (LabTest.reference_ranges self) = Some r ->
  printable r = false ->
  exists msg,
    LabTest.interpret_result self test_code value
    = (Py.Raise (Py.ValueError msg), self).
Proof.
  intros H Hp. unfold LabTest.interpret_result.
  rewrite (dict_get_mem _ _ _ H), H. cbn [negb].
  unfold printable in Hp.
  destruct (Py.prints (ReferenceRange.min_value r)) eqn:Hmin.
  - rewrite (prints_str _ Hmin). simpl in Hp.
    destruct (not_prints_str _ Hp) as [msg ->]. eauto.
  - destruct (not_prints_str _ Hmin) as [msg ->]. eauto.
Qed.

(** Whatever it returns, [interpret_result] writes the cache only. *)
Lemma interpret_result_tables (self : LabTest.t) (test_code : string) (value : Py.num) :
  LabTest.set_results (LabTest.interpret_result self test_code value).2 ∅
  = LabTest.set_results self ∅.
Proof.
  unfold LabTest.interpret_result.
  destruct (Py.dict_mem test_code (LabTest.reference_ranges self)); simpl;
    [|reflexivity].
  destruct (Py.dict_get test_code (LabTest.reference_ranges self)) as [r|];
    [|reflexivity].
  destruct (Py.str (ReferenceRange.min_value r)); [|reflexivity].
  destruct (Py.str (ReferenceRange.max_value r)); reflexivity.
Qed.

(** ** The interpreter *)

Lemma interpret_unknown (st : LabInterpreter.t) (test_type test_code : string)
    (value : Py.num) :
  Py.dict_mem test_type (LabInterpreter.tests st) = false ->
  LabInterpreter.interpret st test_type test_code value
  = (Py.Raise (Py.ValueError ("Unknown test type: " +:+ test_type)), st).
Proof. intros H. unfold LabInterpreter.interpret. now rewrite H. Qed.

Lemma interpret_known (st : LabInterpreter.t) (test_type test_code : string)
    (value : Py.num) (test : LabTest.t) :
  Py.dict_get test_type (LabInterpreter.tests st) = Some test ->
  LabInterpreter.interpret st test_type test_code value
  = ((LabTest.interpret_result test test_code value).1,
     LabInterpreter.mk
       (Py.dict_set test_type (LabTest.interpret_result test test_code value).2
          (LabInterpreter.tests st))).
Proof.
  intros H. unfold LabInterpreter.interpret.
  rewrite (dict_get_mem _ _ _ H), H. simpl.
  now destruct (LabTest.interpret_result test test_code value).
Qed.

Lemma interpret_tables (st : LabInterpreter.t) (test_type test_code : string)
    (value : Py.num) :
  tables (LabInterpreter.interpret st test_type test_code value).2 = tables st.
Proof.
  destruct (Py.dict_get test_type (LabInterpreter.tests st)) as [test|] eqn:E.
  - rewrite (interpret_known _ _ _ _ _ E). unfold tables. simpl.
    rewrite (dict_set_map (fun t => LabTest.set_results t ∅)).
    rewrite interpret_result_tables.
    apply dict_set_get_same.
    rewrite (dict_get_map (fun t => LabTest.set_results t ∅)). now rewrite E.
  - rewrite interpret_unknown; [reflexivity|].
    unfold Py.dict_mem. now rewrite E.
Qed.

Lemma reachable_tables (st : LabInterpreter.t) :
  reachable st -> tables st = tables LabInterpreter.new.
Proof.
  induction 1 as [|st test_type test_code value _ IH]; [reflexivity|].
  now rewrite interpret_tables.
Qed.

(** A panel of a reachable interpreter is a panel as constructed, up to its
    result cache. *)
Lemma reachable_panel (st : LabInterpreter.t) (test_type : string) (test : LabTest.t) :
  reachable st ->
  Py.dict_get test_type (LabInterpreter.tests st) = Some test ->
  exists panel,
    In panel panels
    /\ LabTest.reference_ranges test = LabTest.reference_ranges panel
    /\ LabTest.interpretations test = LabTest.interpretations panel.
Proof.
  intros Hr Hget. apply reachable_tables in Hr.
  assert (Py.dict_get test_type (tables st)
          = Some (LabTest.set_results test ∅)) as H.
  { unfold tables. rewrite (dict_get_map (fun t => LabTest.set_results t ∅)).
    now rewrite Hget. }
  rewrite Hr in H. apply dict_get_In in H.
  unfold tables, LabInterpreter.new, panels in *. simpl in H.
  destruct H as [H|[H|[H|[]]]]; apply (f_equal snd) in H;
    [exists CompleteBloodCount | exists BasicMetabolicPanel | exists LipidPanel];
    (split; [simpl; tauto|]);
    (split; [ exact (eq_sym (f_equal LabTest.reference_ranges H))
            | exact (eq_sym (f_equal LabTest.interpretations H)) ]).
Qed.

(** Every range of the three panels prints. *)
Lemma panels_printable (panel : LabTest.t) (test_code : string) (r : ReferenceRange.t) :
  In panel panels ->
  Py.dict_get test_code (LabTest.reference_ranges panel) = Some r ->
  printable r = true.
Proof.
  intros Hin Hget. apply dict_get_In in Hget.
  assert (forallb (fun panel =>
            forallb (fun kr => printable kr.2) (LabTest.reference_ranges panel))
            panels = true) as H by (vm_compute; reflexivity).
  rewrite List.forallb_forall in H. specialize (H panel Hin).
  rewrite List.forallb_forall in H. exact (H _ Hget).
Qed.

(** So does every range of an interpreter a program can hold. *)
Lemma reachable_printable (st : LabInterpreter.t) (test_type test_code : string)
    (test : LabTest.t) (r : ReferenceRange.t) :
  reachable st ->
  Py.dict_get test_type (LabInterpreter.tests st) = Some test ->
  Py.dict_get test_code (LabTest.reference_ranges test) = Some r ->
  printable r = true.
Proof.
  intros Hr Hpanel Hcode.
  destruct (reachable_panel st test_type test Hr Hpanel) as (panel & Hin & Hranges & _).
  rewrite Hranges in Hcode. exact (panels_printable panel test_code r Hin Hcode).
Qed.

(** ** Unknown codes *)

(** C3, as stated, fails: the error for an unknown test code carries the
    test code and nothing of the panel.  For the code XYZ the blood count
    panel and the metabolic panel raise the same message, in which neither
    the panel key nor the panel name occurs. *)
Lemma unknown_code_message_omits_panel :
  (LabTest.interpret_result CompleteBloodCount "XYZ" (Py.Float 15.0)).1
  = Py.Raise (Py.ValueError "Unknown test code: XYZ")
  /\ (LabInterpreter.interpret LabInterpreter.new "CBC" "XYZ" (Py.Float 15.0)).1
     = Py.Raise (Py.ValueError "Unknown test code: XYZ")
  /\ (LabInterpreter.interpret LabInterpreter.new "BMP" "XYZ" (Py.Float 15.0)).1
     = Py.Raise (Py.ValueError "Unknown test code: XYZ")
  /\ occurs "CBC" "Unknown test code: XYZ" = false
  /\ occurs (LabTest.test_name CompleteBloodCount) "Unknown test code: XYZ" = false
  /\ occurs "XYZ" "Unknown test code: XYZ" = true.
Proof. repeat split; vm_compute; reflexivity. Qed.

(** C3, amended. For every panel and every test code that is not a key of
    its reference-range mapping, interpreting any value raises a ValueError
    whose message is "Unknown test code: " followed by the test code, and the
    panel, result cache included, is left as it was; an interpreter that
    holds the panel passes the error on and is left as it was too. *)
Theorem unknown_test_code_raises (self : LabTest.t) (test_code : string) (value : Py.num) :
  Py.dict_mem test_code (LabTest.reference_ranges self) = false ->
  LabTest.interpret_result self test_code value
  = (Py.Raise (Py.ValueError ("Unknown test code: " +:+ test_code)), self)
  /\ (forall st test_type,
        Py.dict_get test_type (LabInterpreter.tests st) = Some self ->
        LabInterpreter.interpret st test_type test_code value
        = (Py.Raise (Py.ValueError ("Unknown test code: " +:+ test_code)), st)).
Proof.
  intros H. split; [now apply interpret_result_unknown|].
  intros st test_type Hget.
  rewrite (interpret_known _ _ _ _ _ Hget), interpret_result_unknown by exact H.
  simpl. rewrite (dict_set_get_same _ _ _ Hget). now destruct st.
Qed.

(** The theorem at the blood count panel and the code XYZ. *)
Lemma unknown_test_code_raises_in_blood_count :
  LabTest.interpret_result CompleteBloodCount "XYZ" (Py.Float 15.0)
  = (Py.Raise (Py.ValueError "Unknown test code: XYZ"), CompleteBloodCount)
  /\ LabInterpreter.interpret LabInterpreter.new "CBC" "XYZ" (Py.Float 15.0)
     = (Py.Raise (Py.ValueError "Unknown test code: XYZ"), LabInterpreter.new).
Proof.
  destruct (unknown_test_code_raises CompleteBloodCount "XYZ" (Py.Float 15.0) eq_refl)
    as [Hpanel Hinterp].
  exact (conj Hpanel (Hinterp LabInterpreter.new "CBC" eq_refl)).
Defined.

(** C4. For every panel code that is not a key of the interpreter's panel
    mapping, [interpret] raises a ValueError whose message, "Unknown test
    type: " followed by the requested panel code, names it; the error does
    not depend on the test code or the value, no panel is consulted, and the
    interpreter, every panel's result cache included, is left as it was. *)
Theorem unknown_panel_raises (st : LabInterpreter.t) (test_type test_code : string)
    (value : Py.num) :
  Py.dict_mem test_type (LabInterpreter.tests st) = false ->
  LabInterpreter.interpret st test_type test_code value
  = (Py.Raise (Py.ValueError ("Unknown test type: " +:+ test_type)), st).
Proof. apply interpret_unknown. Qed.

(** The theorem at the panel code XYZ of the specification's scenario. *)
Lemma unknown_panel_raises_for_xyz :
  LabInterpreter.interpret LabInterpreter.new "XYZ" "Hemoglobin" (Py.Float 15.0)
  = (Py.Raise (Py.ValueError "Unknown test type: XYZ"), LabInterpreter.new).
Proof.
  exact (unknown_panel_raises LabInterpreter.new "XYZ" "Hemoglobin" (Py.Float 15.0)
           eq_refl).
Defined.

(** ** Known codes *)

(** A table key names a status exactly when it is the value of that
    member of the enumeration. *)
Lemma status_named_value (name : string) (s : ResultStatus) :
  status_named name = Some s <-> name = status_value s.
Proof.
  split.
  - unfold status_named.
    repeat match goal with
           | |- context [String.eqb name ?c] =>
               destruct (String.eqb_spec name c) as [->|?]
           end;
      intros H; try discriminate; now injection H as <-.
  - intros ->. now destruct s.
Qed.

(** Looking a status up by its value, as the code does, finds the text
    keyed by the status. *)
Lemma text_keyed_text_for (self : LabTest.t) (test_code : string) (s : ResultStatus) :
  text_keyed self test_code s = text_for self test_code s.
Proof.
  unfold text_keyed, text_for.
  destruct (Py.dict_get test_code (LabTest.interpretations self)) as [table|];
    [|reflexivity].
  induction table as [|[name text] table IH]; [reflexivity|].
  cbn [List.find Py.dict_get fst snd].
  destruct (String.eqb_spec (status_value s) name) as [<-|Hne].
  - now destruct s.
  - destruct (status_named name) as [s'|] eqn:E; [|exact IH].
    apply status_named_value in E. subst name.
    destruct s, s'; try exact IH; now contradiction Hne.
Qed.

Lemma expected_result_as_specified (self : LabTest.t) (test_code : string)
    (r : ReferenceRange.t) (value : Py.num) :
  as_specified self test_code r value (expected_result self test_code r value).
Proof.
  unfold as_specified, expected_result. cbn.
  do 4 (split; [reflexivity|]).
  split; [apply classify_rule_get_status|].
  split; [now rewrite text_keyed_text_for | reflexivity].
Qed.

(** C5. For every test code that is a key of a panel's reference-range
    mapping, with bounds that print, and every value, [interpret_result]
    returns a result and files it under the test code; the result carries
    the test code, the value, the range and its unit, the status the ordered
    rule gives, the text keyed by (test code, status) or else "See reference
    ranges.", and the summary "Normal range: {min}-{max} {unit}".  Every
    range of the three panels has bounds that print, so on the interpreter as
    constructed and after any calls, [interpret] returns such a result for
    every test code of every panel.  In particular
    interpret("CBC", "Hemoglobin", 15.0) returns status NORMAL, unit "g/dL",
    the fallback text and the summary "Normal range: 13.5-17.5 g/dL";
    interpret("LP", "HDL", 35) returns status LOW with the text the lipid
    panel holds for a low HDL; interpret("LP", "LDL", 90) returns status
    NORMAL with the text for a normal LDL; and
    interpret("BMP", "Potassium", 5.5) returns status HIGH with the text for
    a high potassium. *)
Theorem known_test_code_returns :
  (forall (self : LabTest.t) (test_code : string) (value : Py.num) (r : ReferenceRange.t),
     Py.dict_get test_code (LabTest.reference_ranges self) = Some r ->
     printable r = true ->
     exists result,
       LabTest.interpret_result self test_code value
       = (Py.Return result,
          LabTest.set_results self (<[test_code := result]> (LabTest.results self)))
       /\ as_specified self test_code r value result)
  /\ (forall (st : LabInterpreter.t) (test_type test_code : string) (value : Py.num)
        (test : LabTest.t) (r : ReferenceRange.t),
        reachable st ->
        Py.dict_get test_type (LabInterpreter.tests st) = Some test ->
        Py.dict_get test_code (LabTest.reference_ranges test) = Some r ->
        exists result st',
          LabInterpreter.interpret st test_type test_code value
          = (Py.Return result, st')
          /\ as_specified test test_code r value result)
  /\ (LabInterpreter.interpret LabInterpreter.new "CBC" "Hemoglobin" (Py.Float 15.0)).1
     = Py.Return
         {| TestResult.test_name := "Hemoglobin";
            TestResult.value := Py.Float 15.0;
            TestResult.unit := "g/dL";
            TestResult.reference_range :=
              ReferenceRange.new (Py.Float 13.5) (Py.Float 17.5)
                (Some (Py.Float 7.0)) (Some (Py.Float 20.0)) "g/dL";
            TestResult.status := NORMAL;
            TestResult.interpretation := "See reference ranges.";
            TestResult.clinical_significance := "Normal range: 13.5-17.5 g/dL" |}
  /\ (LabInterpreter.interpret LabInterpreter.new "LP" "HDL" (Py.Int 35)).1
     = Py.Return
         {| TestResult.test_name := "HDL";
            TestResult.value := Py.Int 35;
            TestResult.unit := "mg/dL";
            TestResult.reference_range :=
              ReferenceRange.new (Py.Int 40) (Py.Int 300) None None "mg/dL";
            TestResult.status := LOW;
            TestResult.interpretation :=
              "Low HDL ('good' cholesterol) increases cardiovascular disease risk.";
            TestResult.clinical_significance := "Normal range: 40-300 mg/dL" |}
  /\ (LabInterpreter.interpret LabInterpreter.new "LP" "LDL" (Py.Int 90)).1
     = Py.Return
         {| TestResult.test_name := "LDL";
            TestResult.value := Py.Int 90;
            TestResult.unit := "mg/dL";
            TestResult.reference_range :=
              ReferenceRange.new (Py.Int 0) (Py.Int 100) None None "mg/dL";
            TestResult.status := NORMAL;
            TestResult.interpretation :=
              "LDL at optimal level reduces cardiovascular disease risk.";
            TestResult.clinical_significance := "Normal range: 0-100 mg/dL" |}
  /\ (LabInterpreter.interpret LabInterpreter.new "BMP" "Potassium" (Py.Float 5.5)).1
     = Py.Return
         {| TestResult.test_name := "Potassium";
            TestResult.value := Py.Float 5.5;
            TestResult.unit := "mEq/L";
            TestResult.reference_range :=
              ReferenceRange.new (Py.Float 3.5) (Py.Float 5.0)
                (Some (Py.Float 2.8)) (Some (Py.Float 6.0)) "mEq/L";
            TestResult.status := HIGH;
            TestResult.interpretation :=
              "Hyperkalemia - dangerous for heart; may indicate kidney failure or excessive supplementation.";
            TestResult.clinical_significance := "Normal range: 3.5-5.0 mEq/L" |}.
Proof.
  split; [|split; [|repeat split; vm_compute; reflexivity]].
  - intros self test_code value r Hcode Hp.
    exists (expected_result self test_code r value).
    split; [now apply interpret_result_known | apply expected_result_as_specified].
  - intros st test_type test_code value test r Hr Hpanel Hcode.
    pose proof (reachable_printable st test_type test_code test r Hr Hpanel Hcode) as Hp.
    rewrite (interpret_known _ _ _ _ _ Hpanel),
      (interpret_result_known _ _ _ _ Hcode Hp).
    eexists _, _. split; [reflexivity | apply expected_result_as_specified].
Qed.

(** The theorem at the hemoglobin range, for a value below critical-low. *)
Lemma known_test_code_returns_for_hemoglobin :
  exists result,
    LabTest.interpret_result CompleteBloodCount "Hemoglobin" (Py.Float 6.0)
    = (Py.Return result,
       LabTest.set_results CompleteBloodCount
         (<["Hemoglobin" := result]> (LabTest.results CompleteBloodCount)))
    /\ as_specified CompleteBloodCount "Hemoglobin" hemoglobin_range (Py.Float 6.0)
         result.
Proof.
  exact (proj1 known_test_code_returns CompleteBloodCount "Hemoglobin"
           (Py.Float 6.0) hemoglobin_range eq_refl eq_refl).
Defined.

(** ** The result cache *)

Lemma filter_none {A : Type} (P : A -> Prop) `{forall x, Decision (P x)} (l : list A) :
  Forall (fun x => ~ P x) l -> filter P l = [].
Proof.
  induction 1 as [|x l Hx _ IH]; [reflexivity|].
  now rewrite filter_cons_False.
Qed.

(** A cache holds exactly one entry under a key it maps. *)
Lemma cached_under_lookup (test_code : string) (result : TestResult.t)
    (cache : gmap string TestResult.t) :
  cache !! test_code = Some result ->
  cached_under test_code cache = [(test_code, result)].
Proof.
  intros H. unfold cached_under.
  apply Permutation_singleton_r.
  rewrite <- (insert_delete_id cache test_code result H).
  rewrite map_to_list_insert by apply lookup_delete_eq.
  rewrite filter_cons_True by reflexivity.
  apply Permutation_skip.
  rewrite filter_none; [reflexivity|].
  apply Forall_forall. intros [k v] Hin Hk. simpl in Hk. subst k.
  apply elem_of_map_to_list in Hin.
  rewrite lookup_delete_eq in Hin. discriminate.
Qed.

(** One successful call: the panel's cache gains the returned result under
    the test code, and nothing else moves. *)
Lemma interpret_frame (st : LabInterpreter.t) (test_type test_code : string)
    (value : Py.num) (test : LabTest.t) (r : ReferenceRange.t) :
  Py.dict_get test_type (LabInterpreter.tests st) = Some test ->
  Py.dict_get test_code (LabTest.reference_ranges test) = Some r ->
  printable r = true ->
  exists result st' test',
    LabInterpreter.interpret st test_type test_code value = (Py.Return result, st')
    /\ result = expected_result test test_code r value
    /\ Py.dict_get test_type (LabInterpreter.tests st') = Some test'
    /\ LabTest.results test' = <[test_code := result]> (LabTest.results test)
    /\ LabTest.set_results test' ∅ = LabTest.set_results test ∅
    /\ (forall other, other <> test_type ->
          Py.dict_get other (LabInterpreter.tests st')
          = Py.dict_get other (LabInterpreter.tests st)).
Proof.
  intros Hpanel Hcode Hp.
  rewrite (interpret_known _ _ _ _ _ Hpanel), (interpret_result_known _ _ _ _ Hcode Hp).
  simpl. eexists _, _, _. split; [reflexivity|]. split; [reflexivity|].
  split; [apply dict_get_set_eq|]. split; [reflexivity|]. split; [reflexivity|].
  intros other Hne. now apply dict_get_set_ne.
Qed.

(** C6. For every panel and test code in the data whose range has bounds
    that print, as every range of the three panels has, two calls of
    [interpret] for that panel and test code, with any two values, both
    return; then the panel's cache holds exactly one result under the test
    code, the one the second call returned; after each call every other entry
    of that cache is as it was before the two calls, and so is every other
    panel. *)
Theorem second_result_replaces_first (st : LabInterpreter.t)
    (test_type test_code : string) (value1 value2 : Py.num)
    (test : LabTest.t) (r : ReferenceRange.t) :
  Py.dict_get test_type (LabInterpreter.tests st) = Some test ->
  Py.dict_get test_code (LabTest.reference_ranges test) = Some r ->
  printable r = true ->
  exists result1 st1 cache1 result2 st2 cache2,
    LabInterpreter.interpret st test_type test_code value1 = (Py.Return result1, st1)
    /\ LabInterpreter.interpret st1 test_type test_code value2 = (Py.Return result2, st2)
    /\ TestResult.value result2 = value2
    /\ cache_of st1 test_type = Some cache1
    /\ cache_of st2 test_type = Some cache2
    /\ cached_under test_code cache2 = [(test_code, result2)]
    /\ (forall other, other <> test_code ->
          cache1 !! other = LabTest.results test !! other
          /\ cache2 !! other = LabTest.results test !! other)
    /\ (forall other, other <> test_type ->
          Py.dict_get other (LabInterpreter.tests st1)
          = Py.dict_get other (LabInterpreter.tests st)
          /\ Py.dict_get other (LabInterpreter.tests st2)
             = Py.dict_get other (LabInterpreter.tests st)).
Proof.
  intros Hpanel Hcode Hp.
  destruct (interpret_frame st test_type test_code value1 test r Hpanel Hcode Hp)
    as (result1 & st1 & test1 & Hcall1 & _ & Hpanel1 & Hcache1 & Htables1 & Hother1).
  assert (Py.dict_get test_code (LabTest.reference_ranges test1) = Some r) as Hcode1.
  { change (LabTest.reference_ranges test1)
      with (LabTest.reference_ranges (LabTest.set_results test1 ∅)).
    now rewrite Htables1. }
  destruct (interpret_frame st1 test_type test_code value2 test1 r Hpanel1 Hcode1 Hp)
    as (result2 & st2 & test2 & Hcall2 & Hres2 & Hpanel2 & Hcache2 & _ & Hother2).
  exists result1, st1, (LabTest.results test1),
         result2, st2, (LabTest.results test2).
  split; [exact Hcall1|]. split; [exact Hcall2|].
  split; [now rewrite Hres2|].
  split; [unfold cache_of; now rewrite Hpanel1|].
  split; [unfold cache_of; now rewrite Hpanel2|].
  split; [apply cached_under_lookup; rewrite Hcache2; apply lookup_insert_eq|].
  split.
  - intros other Hne. rewrite Hcache2, Hcache1.
    now rewrite !lookup_insert_ne by congruence.
  - intros other Hne. now rewrite Hother2, Hother1.
Qed.

(** The theorem at hemoglobin in the blood count panel, for 15.0 then 6.0. *)
Lemma second_result_replaces_first_for_hemoglobin :
  exists result1 st1 cache1 result2 st2 cache2,
    LabInterpreter.interpret LabInterpreter.new "CBC" "Hemoglobin" (Py.Float 15.0)
    = (Py.Return result1, st1)
    /\ LabInterpreter.interpret st1 "CBC" "Hemoglobin" (Py.Float 6.0)
       = (Py.Return result2, st2)
    /\ TestResult.value result2 = Py.Float 6.0
    /\ cache_of st1 "CBC" = Some cache1
    /\ cache_of st2 "CBC" = Some cache2
    /\ cached_under "Hemoglobin" cache2 = [("Hemoglobin", result2)]
    /\ (forall other, other <> "Hemoglobin" ->
          cache1 !! other = LabTest.results CompleteBloodCount !! other
          /\ cache2 !! other = LabTest.results CompleteBloodCount !! other)
    /\ (forall other, other <> "CBC" ->
          Py.dict_get other (LabInterpreter.tests st1)
          = Py.dict_get other (LabInterpreter.tests LabInterpreter.new)
          /\ Py.dict_get other (LabInterpreter.tests st2)
             = Py.dict_get other (LabInterpreter.tests LabInterpreter.new)).
Proof.
  exact (second_result_replaces_first LabInterpreter.new "CBC" "Hemoglobin"
           (Py.Float 15.0) (Py.Float 6.0) CompleteBloodCount hemoglobin_range
           eq_refl eq_refl eq_refl).
Defined.

(** ** Introspection *)

(** The listing reads the reference-range keys only, never a cache. *)
Lemma get_available_tests_tables (st : LabInterpreter.t) :
  LabInterpreter.get_available_tests st
  = LabInterpreter.get_available_tests (LabInterpreter.mk (tables st)).
Proof.
  unfold LabInterpreter.get_available_tests, tables. simpl.
  generalize (@nil (string * list string)).
  induction (LabInterpreter.tests st) as [|[test_type test] rest IH];
    intros acc; simpl; [reflexivity|].
  apply IH.
Qed.

(** C7. [get_available_tests] returns a value and takes no state back; on
    the interpreter as constructed, and after any calls of [interpret], it
    lists every panel with its test codes in the order of construction: CBC,
    then BMP, then LP, each with the codes of its reference-range table. *)
Theorem available_tests_in_construction_order (st : LabInterpreter.t) :
  reachable st ->
  LabInterpreter.get_available_tests st
  = [ ("CBC", ["WBC"; "RBC"; "Hemoglobin"; "Hematocrit"; "MCV"; "Platelets"]);
      ("BMP", ["Sodium"; "Potassium"; "Chloride"; "CO2"; "BUN"; "Creatinine";
               "Glucose"; "Calcium"]);
      ("LP", ["Total_Cholesterol"; "LDL"; "HDL"; "Triglycerides"]) ].
Proof.
  intros Hr. rewrite get_available_tests_tables, (reachable_tables st Hr).
  reflexivity.
Qed.

(** The theorem after a call that returns and a call that raises. *)
Lemma available_tests_after_two_calls :
  LabInterpreter.get_available_tests
    (LabInterpreter.interpret
       (LabInterpreter.interpret LabInterpreter.new "CBC" "Hemoglobin" (Py.Float 15.0)).2
       "LP" "XYZ" (Py.Int 1)).2
  = [ ("CBC", ["WBC"; "RBC"; "Hemoglobin"; "Hematocrit"; "MCV"; "Platelets"]);
      ("BMP", ["Sodium"; "Potassium"; "Chloride"; "CO2"; "BUN"; "Creatinine";
               "Glucose"; "Calcium"]);
      ("LP", ["Total_Cholesterol"; "LDL"; "HDL"; "Triglycerides"]) ].
Proof.
  apply available_tests_in_construction_order.
  apply reach_interpret, reach_interpret, reach_new.
Defined.

(** ** Critical statuses *)

Lemma no_critical_text_sound (self : LabTest.t) (test_code : string) (s : ResultStatus) :
  no_critical_text self = true ->
  is_critical s = true ->
  text_for self test_code s = None.
Proof.
  unfold no_critical_text, text_for. intros Hall Hs.
  destruct (Py.dict_get test_code (LabTest.interpretations self)) as [table|] eqn:E;
    [|reflexivity].
  rewrite List.forallb_forall in Hall.
  specialize (Hall _ (dict_get_In _ _ _ E)). simpl in Hall.
  apply andb_prop in Hall as [Hlow Hhigh].
  apply negb_true_iff, dict_mem_false_get in Hlow, Hhigh.
  destruct s; simpl in *; congruence.
Qed.

Lemma panels_no_critical_text (panel : LabTest.t) :
  In panel panels -> no_critical_text panel = true.
Proof.
  intros [<-|[<-|[<-|[]]]]; vm_compute; reflexivity.
Qed.

(** C10. No interpretation table of the three panels holds text for
    CRITICAL_LOW or CRITICAL_HIGH.  Hence, on the interpreter as constructed
    and after any calls, for every panel, every test code of its data and
    every value whose status is CRITICAL_LOW or CRITICAL_HIGH, [interpret]
    returns a result with that status whose interpretation is the fallback
    "See reference ranges.". *)
Theorem critical_results_carry_fallback :
  Forall (fun panel =>
            forall test_code,
              text_for panel test_code CRITICAL_LOW = None
              /\ text_for panel test_code CRITICAL_HIGH = None)
         panels
  /\ (forall (st : LabInterpreter.t) (test_type test_code : string)
        (value : Py.num) (test : LabTest.t) (r : ReferenceRange.t),
        reachable st ->
        Py.dict_get test_type (LabInterpreter.tests st) = Some test ->
        Py.dict_get test_code (LabTest.reference_ranges test) = Some r ->
        is_critical (ReferenceRange.get_status r value) = true ->
        exists result st',
          LabInterpreter.interpret st test_type test_code value
          = (Py.Return result, st')
          /\ TestResult.status result = ReferenceRange.get_status r value
          /\ TestResult.interpretation result = "See reference ranges.").
Proof.
  split.
  - apply List.Forall_forall. intros panel Hin test_code.
    split; apply no_critical_text_sound;
      auto using panels_no_critical_text.
  - intros st test_type test_code value test r Hr Hpanel Hcode Hcrit.
    pose proof (reachable_printable st test_type test_code test r Hr Hpanel Hcode) as Hp.
    destruct (interpret_frame st test_type test_code value test r Hpanel Hcode Hp)
      as (result & st' & _ & Hcall & -> & _).
    exists (expected_result test test_code r value), st'.
    split; [exact Hcall|]. split; [reflexivity|].
    destruct (reachable_panel st test_type test Hr Hpanel)
      as (panel & Hin & _ & Htexts).
    unfold expected_result, text_for. simpl. rewrite Htexts.
    fold (text_for panel test_code (ReferenceRange.get_status r value)).
    now rewrite (no_critical_text_sound panel test_code _
                   (panels_no_critical_text panel Hin) Hcrit).
Qed.

(** The theorem at hemoglobin 6.0, below the critical-low threshold 7.0. *)
Lemma critical_hemoglobin_carries_fallback :
  exists result st',
    LabInterpreter.interpret LabInterpreter.new "CBC" "Hemoglobin" (Py.Float 6.0)
    = (Py.Return result, st')
    /\ TestResult.status result
       = ReferenceRange.get_status hemoglobin_range (Py.Float 6.0)
    /\ TestResult.interpretation result = "See reference ranges.".
Proof.
  exact (proj2 critical_results_carry_fallback LabInterpreter.new "CBC" "Hemoglobin"
           (Py.Float 6.0) CompleteBloodCount hemoglobin_range
           reach_new eq_refl eq_refl eq_refl).
Defined.

(** * Further properties *)

(** ** Classification along the number line *)

Lemma py_le_lt_trans (a b c : Py.num) :
  Py.le a b = true -> Py.lt b c = true -> Py.lt a c = true.
Proof. apply x_leb_ltb_trans. Qed.

Lemma py_lt_le_trans (a b c : Py.num) :
  Py.lt a b = true -> Py.le b c = true -> Py.lt a c = true.
Proof. apply x_ltb_leb_trans. Qed.

Lemma is_nan_unordered (v c : Py.num) :
  is_nan v = true -> Py.lt v c = false /\ Py.gt v c = false.
Proof.
  unfold is_nan, Py.lt, Py.gt. destruct (Py.val v) eqn:E; try discriminate.
  intros _. apply x_nan_unordered.
Qed.

Lemma not_nan_le_refl (v : Py.num) : is_nan v = false -> Py.le v v = true.
Proof.
  unfold is_nan, Py.le. destruct (Py.val v); try discriminate; intros _; simpl;
    try reflexivity.
  apply Qle_bool_iff, Qle_refl.
Qed.

(** [get_status] from the four comparisons it makes. *)
Lemma get_status_cases (r : ReferenceRange.t) (v : Py.num) :
  ReferenceRange.get_status r v
  = if match ReferenceRange.critical_low r with
       | Some c => Py.lt v c | None => false end then CRITICAL_LOW
    else if match ReferenceRange.critical_high r with
            | Some c => Py.gt v c | None => false end then CRITICAL_HIGH
    else if Py.lt v (ReferenceRange.min_value r) then LOW
    else if Py.gt v (ReferenceRange.max_value r) then HIGH
    else NORMAL.
Proof. reflexivity. Qed.

(** X1. A value that is not a number ([nan]) compares false with every
    bound, so every reference range, whatever its thresholds, classifies it
    as NORMAL. *)
Theorem nan_is_normal (r : ReferenceRange.t) (v : Py.num) :
  is_nan v = true -> ReferenceRange.get_status r v = NORMAL.
Proof.
  intros H. rewrite get_status_cases.
  destruct (ReferenceRange.critical_low r) as [c|];
    [rewrite (proj1 (is_nan_unordered v c H))|];
    (destruct (ReferenceRange.critical_high r) as [c'|];
     [rewrite (proj2 (is_nan_unordered v c' H))|]);
    now rewrite (proj1 (is_nan_unordered v _ H)), (proj2 (is_nan_unordered v _ H)).
Qed.

(** The theorem at the hemoglobin range. *)
Lemma nan_hemoglobin_is_normal :
  ReferenceRange.get_status hemoglobin_range (Py.Float nan) = NORMAL.
Proof. exact (nan_is_normal hemoglobin_range (Py.Float nan) eq_refl). Defined.

(** A lower guard that fires for a value fires below it, an upper guard
    that fires for a value fires above it. *)
Lemma guard_low_down (v w c : Py.num) :
  Py.le v w = true -> Py.lt w c = true -> Py.lt v c = true.
Proof. apply py_le_lt_trans. Qed.

Lemma guard_high_up (v w c : Py.num) :
  Py.le v w = true -> Py.gt v c = true -> Py.gt w c = true.
Proof. intros Hvw H. exact (x_ltb_leb_trans _ _ _ H Hvw). Qed.

Ltac split_guards :=
  repeat match goal with
         | |- context [Py.lt ?a ?c] =>
             let E := fresh "E" in destruct (Py.lt a c) eqn:E
         | |- context [Py.gt ?a ?c] =>
             let E := fresh "E" in destruct (Py.gt a c) eqn:E
         end.

Ltac chain_guards v w Hvw :=
  repeat match goal with
         | H : Py.lt w ?c = true |- _ =>
             pose proof (guard_low_down v w c Hvw H); clear H
         | H : Py.gt v ?c = true |- _ =>
             pose proof (guard_high_up v w c Hvw H); clear H
         end.

(** X2. Classification is monotone: for every reference range, well
    ordered or not, and every two values with [v <= w], the status of [w] is
    at least as high as the status of [v] in the order CRITICAL_LOW, LOW,
    NORMAL, HIGH, CRITICAL_HIGH. *)
Theorem severity_monotone (r : ReferenceRange.t) (v w : Py.num) :
  Py.le v w = true ->
  severity (ReferenceRange.get_status r v) <= severity (ReferenceRange.get_status r w).
Proof.
  intros Hvw. rewrite !get_status_cases.
  destruct (ReferenceRange.critical_low r) as [cl|];
    destruct (ReferenceRange.critical_high r) as [ch|].
  all: split_guards; simpl severity; try lia.
  all: chain_guards v w Hvw; congruence.
Qed.

(** The theorem at the hemoglobin range, for 6.5 and 18. *)
Lemma severity_monotone_for_hemoglobin :
  severity (ReferenceRange.get_status hemoglobin_range (Py.Float 6.5))
  <= severity (ReferenceRange.get_status hemoglobin_range (Py.Int 18)).
Proof.
  exact (severity_monotone hemoglobin_range (Py.Float 6.5) (Py.Int 18) eq_refl).
Defined.

(** X3. In a well-ordered range the critical thresholds only raise the
    urgency of a reading: the range without them gives LOW where the range
    gives CRITICAL_LOW, HIGH where it gives CRITICAL_HIGH, and the same
    status otherwise. *)
Theorem criticals_only_escalate (r : ReferenceRange.t) (v : Py.num) :
  well_ordered r = true ->
  ReferenceRange.get_status (without_criticals r) v
  = plain (ReferenceRange.get_status r v).
Proof.
  intros W. apply well_ordered_inv in W as (Hmm & Hlow & Hhigh).
  rewrite !get_status_cases. cbn [without_criticals ReferenceRange.critical_low
    ReferenceRange.critical_high ReferenceRange.min_value ReferenceRange.max_value].
  assert (forall ch, ReferenceRange.critical_high r = Some ch ->
            Py.gt v ch = true ->
            Py.lt v (ReferenceRange.min_value r) = false
            /\ Py.gt v (ReferenceRange.max_value r) = true) as Habove.
  { intros ch E Hch. split.
    - exact (py_le_gt_not_lt _ _ _ (py_le_trans _ _ _ Hmm (Hhigh ch E)) Hch).
    - exact (x_leb_ltb_trans _ _ _ (Hhigh ch E) Hch). }
  destruct (ReferenceRange.critical_low r) as [cl|].
  - destruct (Py.lt v cl) eqn:Hcl.
    { now rewrite (py_lt_le_trans v cl _ Hcl (Hlow cl eq_refl)). }
    destruct (ReferenceRange.critical_high r) as [ch|];
      [|split_guards; reflexivity].
    destruct (Py.gt v ch) eqn:Hch; [|split_guards; reflexivity].
    now destruct (Habove ch eq_refl Hch) as [-> ->].
  - destruct (ReferenceRange.critical_high r) as [ch|];
      [|split_guards; reflexivity].
    destruct (Py.gt v ch) eqn:Hch; [|split_guards; reflexivity].
    now destruct (Habove ch eq_refl Hch) as [-> ->].
Qed.

(** The theorem at the hemoglobin range, for a critically low value. *)
Lemma criticals_only_escalate_for_hemoglobin :
  ReferenceRange.get_status (without_criticals hemoglobin_range) (Py.Float 6.0)
  = plain (ReferenceRange.get_status hemoglobin_range (Py.Float 6.0)).
Proof.
  exact (criticals_only_escalate hemoglobin_range (Py.Float 6.0) eq_refl).
Defined.

(** X4. In a well-ordered range a number is NORMAL exactly when it lies in
    the closed interval from the minimum to the maximum. *)
Theorem normal_iff_within (r : ReferenceRange.t) (v : Py.num) :
  well_ordered r = true ->
  is_nan v = false ->
  ReferenceRange.get_status r v = NORMAL
  <-> Py.le (ReferenceRange.min_value r) v = true
      /\ Py.le v (ReferenceRange.max_value r) = true.
Proof.
  intros W Hv. apply well_ordered_inv in W as (Hmm & Hlow & Hhigh).
  apply not_nan_le_refl in Hv.
  rewrite get_status_cases. split.
  - intros H.
    assert (Py.lt v (ReferenceRange.min_value r) = false
            /\ Py.gt v (ReferenceRange.max_value r) = false) as [Hlo Hhi].
    { revert H.
      destruct (ReferenceRange.critical_low r), (ReferenceRange.critical_high r);
        split_guards; intros; try discriminate; now split. }
    split.
    + exact (x_leb_total _ _ Hv (x_leb_refl_l _ _ Hmm) Hlo).
    + exact (x_leb_total _ _ (x_leb_refl_r _ _ Hmm) Hv Hhi).
  - intros [Hlo Hhi].
    destruct (ReferenceRange.critical_low r) as [cl|];
      [rewrite (py_le_not_lt _ _ (py_le_trans _ _ _ (Hlow cl eq_refl) Hlo))|];
      (destruct (ReferenceRange.critical_high r) as [ch|];
       [rewrite (py_le_not_gt _ _ (py_le_trans _ _ _ Hhi (Hhigh ch eq_refl)))|]);
      now rewrite (py_le_not_lt _ _ Hlo), (py_le_not_gt _ _ Hhi).
Qed.

(** The theorem at the hemoglobin range, for 15.0. *)
Lemma normal_iff_within_for_hemoglobin :
  ReferenceRange.get_status hemoglobin_range (Py.Float 15.0) = NORMAL
  <-> Py.le (Py.Float 13.5) (Py.Float 15.0) = true
      /\ Py.le (Py.Float 15.0) (Py.Float 17.5) = true.
Proof.
  exact (normal_iff_within hemoglobin_range (Py.Float 15.0) eq_refl eq_refl).
Defined.

(** ** Calls of the interpreter *)

Lemma dict_mem_get {V : Type} (k : string) (d : Py.dict V) :
  Py.dict_mem k d = true -> exists v, Py.dict_get k d = Some v.
Proof. unfold Py.dict_mem. destruct (Py.dict_get k d); [eauto | discriminate]. Qed.

(** A pair that is answerable is known. *)
Lemma answerable_known (st : LabInterpreter.t) (test_type test_code : string) :
  answerable st test_type test_code = true -> known st test_type test_code = true.
Proof.
  unfold answerable, known, Py.dict_mem.
  destruct (Py.dict_get test_type (LabInterpreter.tests st)) as [test|];
    [|discriminate].
  now destruct (Py.dict_get test_code (LabTest.reference_ranges test)).
Qed.

(** Where every range prints, the known pairs are the answerable ones. *)
Lemma all_printable_answerable (st : LabInterpreter.t) (test_type test_code : string) :
  all_printable st = true ->
  answerable st test_type test_code = known st test_type test_code.
Proof.
  unfold all_printable, answerable, known, Py.dict_mem. intros Hall.
  destruct (Py.dict_get test_type (LabInterpreter.tests st)) as [test|] eqn:Epanel;
    [|reflexivity].
  destruct (Py.dict_get test_code (LabTest.reference_ranges test)) as [r|] eqn:Ecode;
    [|reflexivity].
  rewrite List.forallb_forall in Hall.
  specialize (Hall _ (dict_get_In _ _ _ Epanel)). cbn [snd] in Hall.
  rewrite List.forallb_forall in Hall.
  exact (Hall _ (dict_get_In _ _ _ Ecode)).
Qed.

Lemma reachable_answerable (st : LabInterpreter.t) (test_type test_code : string) :
  reachable st ->
  answerable st test_type test_code = known st test_type test_code.
Proof.
  intros Hr. unfold answerable, known, Py.dict_mem.
  destruct (Py.dict_get test_type (LabInterpreter.tests st)) as [test|] eqn:Epanel;
    [|reflexivity].
  destruct (Py.dict_get test_code (LabTest.reference_ranges test)) as [r|] eqn:Ecode;
    [|reflexivity].
  exact (reachable_printable st test_type test_code test r Hr Epanel Ecode).
Qed.

(** The ways a call can go: it raises and leaves the interpreter as it was,
    or it returns the result and files it. *)
Lemma interpret_cases (st : LabInterpreter.t) (test_type test_code : string)
    (value : Py.num) :
  (answerable st test_type test_code = false
   /\ exists msg,
        LabInterpreter.interpret st test_type test_code value
        = (Py.Raise (Py.ValueError msg), st))
  \/ (answerable st test_type test_code = true
      /\ exists test r,
           Py.dict_get test_type (LabInterpreter.tests st) = Some test
           /\ Py.dict_get test_code (LabTest.reference_ranges test) = Some r
           /\ printable r = true
           /\ LabInterpreter.interpret st test_type test_code value
              = (Py.Return (expected_result test test_code r value),
                 LabInterpreter.mk
                   (Py.dict_set test_type
                      (LabTest.set_results test
                         (<[test_code := expected_result test test_code r value]>
                            (LabTest.results test)))
                      (LabInterpreter.tests st)))).
Proof.
  unfold answerable.
  destruct (Py.dict_get test_type (LabInterpreter.tests st)) as [test|] eqn:Epanel.
  - destruct (Py.dict_get test_code (LabTest.reference_ranges test)) as [r|] eqn:Ecode.
    + destruct (printable r) eqn:Hp.
      * right. split; [reflexivity|].
        exists test, r. split; [reflexivity|]. split; [exact Ecode|].
        split; [exact Hp|].
        now rewrite (interpret_known _ _ _ _ _ Epanel),
          (interpret_result_known _ _ _ _ Ecode Hp).
      * left. split; [reflexivity|].
        destruct (interpret_result_unprintable test test_code value r Ecode Hp)
          as [msg E].
        exists msg. rewrite (interpret_known _ _ _ _ _ Epanel), E.
        simpl. rewrite (dict_set_get_same _ _ _ Epanel). now destruct st.
    + left. split; [reflexivity|]. eexists.
      rewrite (interpret_known _ _ _ _ _ Epanel), interpret_result_unknown
        by (unfold Py.dict_mem; now rewrite Ecode).
      simpl. rewrite (dict_set_get_same _ _ _ Epanel). now destruct st.
  - left. split; [reflexivity|]. eexists. apply interpret_unknown.
    unfold Py.dict_mem. now rewrite Epanel.
Qed.

(** X5. [interpret] returns a result exactly for a panel code of the
    interpreter and a test code of that panel's reference ranges whose range
    has bounds that print, and the result then carries the test code and the
    value it was given; otherwise it raises a ValueError; the subscripts
    guarded by the two membership checks never raise a KeyError.  On the
    interpreter as constructed and after any calls every bound prints, and
    the pairs that return are the panel codes with their test codes. *)
Theorem interpret_returns_iff_answerable (st : LabInterpreter.t)
    (test_type test_code : string) (value : Py.num) :
  match (LabInterpreter.interpret st test_type test_code value).1 with
  | Py.Return result =>
      known st test_type test_code = true
      /\ answerable st test_type test_code = true
      /\ TestResult.test_name result = test_code
      /\ TestResult.value result = value
  | Py.Raise (Py.ValueError _) => answerable st test_type test_code = false
  | Py.Raise (Py.KeyError _) => False
  end
  /\ (reachable st ->
      answerable st test_type test_code = known st test_type test_code).
Proof.
  split; [|apply reachable_answerable].
  destruct (interpret_cases st test_type test_code value)
    as [[Hk [msg ->]] | [Hk (test & r & _ & _ & _ & ->)]]; simpl; auto.
  split; [now apply answerable_known | auto].
Qed.

(** The theorem for a second reading of hemoglobin. *)
Lemma interpret_returns_iff_answerable_for_hemoglobin :
  match (LabInterpreter.interpret
           (LabInterpreter.interpret LabInterpreter.new "CBC" "Hemoglobin"
              (Py.Float 6.0)).2
           "CBC" "Hemoglobin" (Py.Float 15.0)).1 with
  | Py.Return result =>
      known
        (LabInterpreter.interpret LabInterpreter.new "CBC" "Hemoglobin" (Py.Float 6.0)).2
        "CBC" "Hemoglobin" = true
      /\ answerable
           (LabInterpreter.interpret LabInterpreter.new "CBC" "Hemoglobin"
              (Py.Float 6.0)).2
           "CBC" "Hemoglobin" = true
      /\ TestResult.test_name result = "Hemoglobin"
      /\ TestResult.value result = Py.Float 15.0
  | Py.Raise (Py.ValueError _) =>
      answerable
        (LabInterpreter.interpret LabInterpreter.new "CBC" "Hemoglobin" (Py.Float 6.0)).2
        "CBC" "Hemoglobin" = false
  | Py.Raise (Py.KeyError _) => False
  end
  /\ answerable
       (LabInterpreter.interpret LabInterpreter.new "CBC" "Hemoglobin" (Py.Float 6.0)).2
       "CBC" "Hemoglobin"
     = known
         (LabInterpreter.interpret LabInterpreter.new "CBC" "Hemoglobin" (Py.Float 6.0)).2
         "CBC" "Hemoglobin".
Proof.
  destruct (interpret_returns_iff_answerable
              (LabInterpreter.interpret LabInterpreter.new "CBC" "Hemoglobin"
                 (Py.Float 6.0)).2
              "CBC" "Hemoglobin" (Py.Float 15.0)) as [Hcall Hreach].
  exact (conj Hcall (Hreach (reach_interpret _ _ _ _ reach_new))).
Defined.

(** The outcome of a call is read off the tables; the caches play no part. *)
Lemma interpret_result_outcome_tables (test : LabTest.t) (test_code : string)
    (value : Py.num) :
  (LabTest.interpret_result test test_code value).1
  = (LabTest.interpret_result (LabTest.set_results test ∅) test_code value).1.
Proof.
  unfold LabTest.interpret_result. cbn [LabTest.set_results LabTest.reference_ranges
    LabTest.interpretations].
  destruct (Py.dict_mem test_code (LabTest.reference_ranges test)); [|reflexivity].
  cbn [negb].
  destruct (Py.dict_get test_code (LabTest.reference_ranges test)) as [r|];
    [|reflexivity].
  destruct (Py.str (ReferenceRange.min_value r)); [|reflexivity].
  now destruct (Py.str (ReferenceRange.max_value r)).
Qed.

Lemma interpret_outcome_tables (st st' : LabInterpreter.t)
    (test_type test_code : string) (value : Py.num) :
  tables st = tables st' ->
  (LabInterpreter.interpret st test_type test_code value).1
  = (LabInterpreter.interpret st' test_type test_code value).1.
Proof.
  intros H.
  assert (Py.dict_get test_type (tables st) = Py.dict_get test_type (tables st'))
    as Hget by now rewrite H.
  unfold tables in Hget.
  rewrite !(dict_get_map (fun t => LabTest.set_results t ∅)) in Hget.
  destruct (Py.dict_get test_type (LabInterpreter.tests st)) as [t|] eqn:E;
    destruct (Py.dict_get test_type (LabInterpreter.tests st')) as [t'|] eqn:E';
    try discriminate.
  - rewrite (interpret_known _ _ _ _ _ E), (interpret_known _ _ _ _ _ E'). simpl.
    rewrite (interpret_result_outcome_tables t), (interpret_result_outcome_tables t').
    assert (LabTest.set_results t ∅ = LabTest.set_results t' ∅) as Hs
      by (simpl in Hget; congruence).
    now rewrite Hs.
  - rewrite !interpret_unknown; [reflexivity| |]; unfold Py.dict_mem;
      now rewrite ?E, ?E'.
Qed.

(** X6. Earlier calls never change what a call returns or raises: on an
    interpreter that has served any calls, [interpret] gives the outcome it
    gives on a fresh interpreter. *)
Theorem outcome_ignores_history (st : LabInterpreter.t)
    (test_type test_code : string) (value : Py.num) :
  reachable st ->
  (LabInterpreter.interpret st test_type test_code value).1
  = (LabInterpreter.interpret LabInterpreter.new test_type test_code value).1.
Proof.
  intros Hr. apply interpret_outcome_tables, reachable_tables, Hr.
Qed.

(** The theorem for a second reading of hemoglobin. *)
Lemma outcome_ignores_history_for_hemoglobin :
  (LabInterpreter.interpret
     (LabInterpreter.interpret LabInterpreter.new "CBC" "Hemoglobin" (Py.Float 6.0)).2
     "CBC" "Hemoglobin" (Py.Float 15.0)).1
  = (LabInterpreter.interpret LabInterpreter.new "CBC" "Hemoglobin" (Py.Float 15.0)).1.
Proof.
  apply outcome_ignores_history. apply reach_interpret, reach_new.
Defined.

Lemma expected_result_tables (test test' : LabTest.t) (test_code : string)
    (r : ReferenceRange.t) (value : Py.num) :
  LabTest.interpretations test' = LabTest.interpretations test ->
  expected_result test' test_code r value = expected_result test test_code r value.
Proof. intros H. unfold expected_result, text_for. now rewrite H. Qed.

(** X7. Repeating a call changes nothing: the same call made again returns
    or raises the same, and leaves the interpreter as the first call left
    it. *)
Theorem repeated_call_is_idle (st : LabInterpreter.t)
    (test_type test_code : string) (value : Py.num) :
  LabInterpreter.interpret
    (LabInterpreter.interpret st test_type test_code value).2
    test_type test_code value
  = LabInterpreter.interpret st test_type test_code value.
Proof.
  destruct (interpret_cases st test_type test_code value)
    as [[_ [msg H]] | [_ (test & r & Hpanel & Hcode & Hp & H)]].
  - rewrite H. simpl. exact H.
  - rewrite H. cbn [snd].
    set (result := expected_result test test_code r value) in *.
    set (test1 := LabTest.set_results test (<[test_code := result]> (LabTest.results test))).
    rewrite (interpret_known _ _ _ _ test1) by apply dict_get_set_eq.
    rewrite (interpret_result_known test1 _ _ r Hcode Hp).
    rewrite (expected_result_tables test test1) by reflexivity.
    fold result. cbn [fst snd LabInterpreter.tests].
    assert (LabTest.set_results test1 (<[test_code := result]> (LabTest.results test1))
            = test1) as ->
      by (unfold test1, LabTest.set_results; cbn; now rewrite insert_insert_eq).
    f_equal. f_equal. apply dict_set_get_same, dict_get_set_eq.
Qed.

(** ** What the caches hold *)

(** The cache entry of any panel and test code after a call. *)
Lemma cached_after (st : LabInterpreter.t) (test_type test_code : string)
    (value : Py.num) (p c : string) :
  cached (LabInterpreter.interpret st test_type test_code value).2 p c
  = match (LabInterpreter.interpret st test_type test_code value).1 with
    | Py.Return result =>
        if decide (p = test_type /\ c = test_code) then Some result
        else cached st p c
    | Py.Raise _ => cached st p c
    end.
Proof.
  destruct (interpret_cases st test_type test_code value)
    as [[_ [msg ->]] | [_ (test & r & Hpanel & _ & _ & ->)]]; [reflexivity|].
  cbn [fst snd]. unfold cached. cbn [LabInterpreter.tests].
  destruct (decide (p = test_type)) as [->|Hp].
  - rewrite dict_get_set_eq, Hpanel. cbn [LabTest.set_results LabTest.results].
    destruct (decide (c = test_code)) as [->|Hc].
    + rewrite lookup_insert_eq. now rewrite decide_True.
    + rewrite lookup_insert_ne by congruence. now rewrite decide_False by tauto.
  - rewrite dict_get_set_ne by congruence. now rewrite decide_False by tauto.
Qed.

Lemma interpret_outcome_after (st : LabInterpreter.t)
    (test_type test_code : string) (value : Py.num)
    (test_type' test_code' : string) (value' : Py.num) :
  (LabInterpreter.interpret
     (LabInterpreter.interpret st test_type test_code value).2
     test_type' test_code' value').1
  = (LabInterpreter.interpret st test_type' test_code' value').1.
Proof. apply interpret_outcome_tables, interpret_tables. Qed.

(** X14. A call touches one cache entry at most and evicts none: after any
    call, every entry of every panel is as it was, except that a call that
    returns leaves its result under its own panel and test code. *)
Theorem call_writes_its_own_entry_only (st : LabInterpreter.t)
    (test_type test_code : string) (value : Py.num) (p c : string) :
  cached (LabInterpreter.interpret st test_type test_code value).2 p c
  = cached st p c
  \/ (p = test_type /\ c = test_code
      /\ exists result,
           (LabInterpreter.interpret st test_type test_code value).1
           = Py.Return result
           /\ cached (LabInterpreter.interpret st test_type test_code value).2 p c
              = Some result).
Proof.
  rewrite cached_after.
  destruct (LabInterpreter.interpret st test_type test_code value).1 as [result|e];
    [|now left].
  case_decide as Hd; [|now left].
  destruct Hd as [-> ->]. right. eauto.
Qed.

(** X8. Calls for different tests commute: when two calls differ in the
    panel code or in the test code, each returns or raises the same whichever
    comes first, and after both the caches hold the same result under every
    test code of every panel, in either order. *)
Theorem calls_for_different_tests_commute (st : LabInterpreter.t)
    (test_type1 test_code1 : string) (value1 : Py.num)
    (test_type2 test_code2 : string) (value2 : Py.num) :
  test_type1 <> test_type2 \/ test_code1 <> test_code2 ->
  (LabInterpreter.interpret
     (LabInterpreter.interpret st test_type1 test_code1 value1).2
     test_type2 test_code2 value2).1
  = (LabInterpreter.interpret st test_type2 test_code2 value2).1
  /\ (LabInterpreter.interpret
        (LabInterpreter.interpret st test_type2 test_code2 value2).2
        test_type1 test_code1 value1).1
     = (LabInterpreter.interpret st test_type1 test_code1 value1).1
  /\ (forall p c,
        cached
          (LabInterpreter.interpret
             (LabInterpreter.interpret st test_type1 test_code1 value1).2
             test_type2 test_code2 value2).2 p c
        = cached
            (LabInterpreter.interpret
               (LabInterpreter.interpret st test_type2 test_code2 value2).2
               test_type1 test_code1 value1).2 p c).
Proof.
  intros Hne.
  split; [apply interpret_outcome_after|]. split; [apply interpret_outcome_after|].
  intros p c. rewrite !cached_after, !interpret_outcome_after.
  destruct (LabInterpreter.interpret st test_type1 test_code1 value1).1 as [res1|e1],
           (LabInterpreter.interpret st test_type2 test_code2 value2).1 as [res2|e2];
    try reflexivity.
  repeat case_decide; try reflexivity. exfalso. intuition congruence.
Qed.

(** The theorem for hemoglobin and platelets of the blood count panel. *)
Lemma calls_for_hemoglobin_and_platelets_commute :
  (LabInterpreter.interpret
     (LabInterpreter.interpret LabInterpreter.new "CBC" "Hemoglobin" (Py.Float 15.0)).2
     "CBC" "Platelets" (Py.Int 40)).1
  = (LabInterpreter.interpret LabInterpreter.new "CBC" "Platelets" (Py.Int 40)).1
  /\ (LabInterpreter.interpret
        (LabInterpreter.interpret LabInterpreter.new "CBC" "Platelets" (Py.Int 40)).2
        "CBC" "Hemoglobin" (Py.Float 15.0)).1
     = (LabInterpreter.interpret LabInterpreter.new "CBC" "Hemoglobin" (Py.Float 15.0)).1
  /\ (forall p c,
        cached
          (LabInterpreter.interpret
             (LabInterpreter.interpret LabInterpreter.new "CBC" "Hemoglobin"
                (Py.Float 15.0)).2
             "CBC" "Platelets" (Py.Int 40)).2 p c
        = cached
            (LabInterpreter.interpret
               (LabInterpreter.interpret LabInterpreter.new "CBC" "Platelets"
                  (Py.Int 40)).2
               "CBC" "Hemoglobin" (Py.Float 15.0)).2 p c).
Proof.
  apply calls_for_different_tests_commute. right. discriminate.
Defined.

Lemma cached_new (p c : string) : cached LabInterpreter.new p c = None.
Proof.
  unfold cached.
  destruct (Py.dict_get p (LabInterpreter.tests LabInterpreter.new)) as [test|] eqn:E;
    [|reflexivity].
  apply dict_get_In in E. simpl in E.
  destruct E as [E|[E|[E|[]]]]; injection E as _ <-; apply lookup_empty.
Qed.

(** X9. The caches stay sound: after any calls, every cached result sits
    under its own test code in a panel that has a range for it, and is the
    result [interpret_result] builds from that range and the panel's texts
    for the value the result records. *)
Theorem cached_results_are_sound (st : LabInterpreter.t)
    (test_type test_code : string) (result : TestResult.t) :
  reachable st ->
  cached st test_type test_code = Some result ->
  exists panel r,
    Py.dict_get test_type (LabInterpreter.tests LabInterpreter.new) = Some panel
    /\ Py.dict_get test_code (LabTest.reference_ranges panel) = Some r
    /\ result = expected_result panel test_code r (TestResult.value result).
Proof.
  intros Hr. revert test_type test_code result.
  induction Hr as [|st p c v Hr IH]; intros test_type test_code result H.
  - now rewrite cached_new in H.
  - rewrite cached_after in H.
    rewrite (interpret_outcome_tables st LabInterpreter.new)
      in H by now apply reachable_tables.
    destruct (interpret_cases LabInterpreter.new p c v)
      as [[_ [msg E]] | [_ (panel & r & Hpanel & Hcode & _ & E)]];
      rewrite E in H; cbn [fst] in H; [now apply IH|].
    case_decide as Hd; [|now apply IH].
    destruct Hd as [-> ->]. injection H as <-.
    exists panel, r. now repeat split.
Qed.

(** The theorem for the entry a reading of hemoglobin leaves. *)
Lemma cached_hemoglobin_is_sound :
  exists panel r,
    Py.dict_get "CBC" (LabInterpreter.tests LabInterpreter.new) = Some panel
    /\ Py.dict_get "Hemoglobin" (LabTest.reference_ranges panel) = Some r
    /\ expected_result CompleteBloodCount "Hemoglobin" hemoglobin_range (Py.Float 6.0)
       = expected_result panel "Hemoglobin" r
           (TestResult.value
              (expected_result CompleteBloodCount "Hemoglobin" hemoglobin_range
                 (Py.Float 6.0))).
Proof.
  apply (cached_results_are_sound
           (LabInterpreter.interpret LabInterpreter.new "CBC" "Hemoglobin"
              (Py.Float 6.0)).2 "CBC" "Hemoglobin").
  - apply reach_interpret, reach_new.
  - vm_compute. reflexivity.
Defined.

(** ** The listing and the calls it admits *)

Lemma dict_mem_keys {V : Type} (k : string) (d : Py.dict V) :
  Py.dict_mem k d = true <-> k ∈ Py.dict_keys d.
Proof.
  unfold Py.dict_mem, Py.dict_keys.
  induction d as [|[k' v] d IH]; simpl.
  - split; [discriminate | intros H; inversion H].
  - rewrite elem_of_cons. destruct (String.eqb_spec k k') as [->|Hne].
    + split; auto.
    + rewrite IH. split; [auto | intros [?|?]; [contradiction | assumption]].
Qed.

(** Assigning to a key that is absent appends it. *)
Lemma dict_set_fresh {V : Type} (k : string) (v : V) (d : Py.dict V) :
  k ∉ Py.dict_keys d -> Py.dict_set k v d = d ++ [(k, v)].
Proof.
  unfold Py.dict_keys. induction d as [|[k' v'] d IH]; simpl; [reflexivity|].
  rewrite not_elem_of_cons. intros [Hne Hd].
  destruct (String.eqb_spec k k') as [->|_]; [contradiction|].
  now rewrite IH.
Qed.

Lemma get_available_tests_fold (l : Py.dict LabTest.t) (acc : Py.dict (list string)) :
  NoDup (Py.dict_keys acc ++ Py.dict_keys l) ->
  fold_left
    (fun acc '(test_type, test) =>
       Py.dict_set test_type (Py.dict_keys (LabTest.reference_ranges test)) acc)
    l acc
  = acc ++ map (fun kt => (kt.1, Py.dict_keys (LabTest.reference_ranges kt.2))) l.
Proof.
  revert acc. induction l as [|[k t] l IH]; intros acc Hnd; simpl.
  - now rewrite app_nil_r.
  - simpl in Hnd. apply NoDup_app in Hnd as (Hacc & Hdisj & Hl).
    apply NoDup_cons in Hl as [Hk Hl].
    rewrite dict_set_fresh by (intros Hin; apply (Hdisj k Hin); left).
    rewrite IH.
    + now rewrite <- app_assoc.
    + unfold Py.dict_keys. rewrite map_app. simpl.
      apply NoDup_app. split; [|split; [|exact Hl]].
      * apply NoDup_app. split; [exact Hacc|]. split; [|apply NoDup_singleton].
        intros x Hx Hx'. apply list_elem_of_singleton in Hx'. subst x.
        apply (Hdisj k Hx). left.
      * intros x Hx Hx'. apply elem_of_app in Hx as [Hx|Hx].
        -- apply (Hdisj x Hx). now right.
        -- apply list_elem_of_singleton in Hx. subst x. exact (Hk Hx').
Qed.

(** With panel codes that are distinct, as the keys of a dict are, the
    listing pairs each panel code with the keys of its reference ranges. *)
Lemma get_available_tests_map (st : LabInterpreter.t) :
  NoDup (Py.dict_keys (LabInterpreter.tests st)) ->
  LabInterpreter.get_available_tests st
  = map (fun kt => (kt.1, Py.dict_keys (LabTest.reference_ranges kt.2)))
        (LabInterpreter.tests st).
Proof.
  intros H. unfold LabInterpreter.get_available_tests.
  now rewrite get_available_tests_fold.
Qed.

(** X10. The listing is exact where every bound prints: for an interpreter
    whose panel codes are distinct, as the keys of a dict are, and whose
    ranges all have bounds that print, as the ranges of the source have,
    [interpret] returns a result for a panel code and a test code exactly
    when [get_available_tests] lists the test code under the panel code; for
    every other pair it raises. *)
Theorem listed_tests_are_the_accepted_ones (st : LabInterpreter.t)
    (test_type test_code : string) (value : Py.num) :
  NoDup (Py.dict_keys (LabInterpreter.tests st)) ->
  all_printable st = true ->
  (exists result,
     (LabInterpreter.interpret st test_type test_code value).1 = Py.Return result)
  <-> (exists codes,
         Py.dict_get test_type (LabInterpreter.get_available_tests st) = Some codes
         /\ test_code ∈ codes).
Proof.
  intros Hnd Hall. rewrite (get_available_tests_map st Hnd).
  rewrite (dict_get_map (fun t => Py.dict_keys (LabTest.reference_ranges t))).
  pose proof (all_printable_answerable st test_type test_code Hall) as Hak.
  destruct (interpret_cases st test_type test_code value)
    as [[Hk [msg ->]] | [Hk (test & r & Hpanel & Hcode & _ & ->)]]; cbn [fst].
  - rewrite Hak in Hk.
    split; [intros [result H]; discriminate|].
    intros (codes & Hcodes & Hin). unfold known in Hk.
    destruct (Py.dict_get test_type (LabInterpreter.tests st)) as [test|];
      [|discriminate].
    injection Hcodes as <-. apply dict_mem_keys in Hin. congruence.
  - split; [|eauto]. intros _. rewrite Hpanel. eexists. split; [reflexivity|].
    apply dict_mem_keys. unfold Py.dict_mem. now rewrite Hcode.
Qed.

(** The theorem on the fresh interpreter, for potassium in the metabolic
    panel. *)
Lemma potassium_is_listed_and_accepted :
  (exists result,
     (LabInterpreter.interpret LabInterpreter.new "BMP" "Potassium" (Py.Float 6.5)).1
     = Py.Return result)
  <-> (exists codes,
         Py.dict_get "BMP" (LabInterpreter.get_available_tests LabInterpreter.new)
         = Some codes
         /\ "Potassium" ∈ codes).
Proof.
  apply listed_tests_are_the_accepted_ones; [compute_done | vm_compute; reflexivity].
Defined.

(** ** The reference checker script *)

Lemma lower_char_idempotent (c : ascii) :
  Checker.lower_char (Checker.lower_char c) = Checker.lower_char c.
Proof.
  destruct c as [[] [] [] [] [] [] [] []]; reflexivity.
Qed.

Lemma lower_idempotent (s : string) : Checker.lower (Checker.lower s) = Checker.lower s.
Proof.
  induction s as [|c s IH]; simpl; [reflexivity|].
  now rewrite lower_char_idempotent, IH.
Qed.

(** Every bound of the script's table prints. *)
Lemma checker_bounds_print (test : string) (ref : Checker.entry) :
  Py.dict_get test Checker.reference_ranges = Some ref ->
  Py.prints (Checker.low ref) = true /\ Py.prints (Checker.high ref) = true.
Proof.
  intros H. apply dict_get_In in H. simpl in H.
  destruct H as [H|[H|[H|[]]]]; injection H as _ <-; split; reflexivity.
Qed.

(** X12. The script judges as the interpreter does a range without critical
    thresholds: for a reply that names an entry of its table, the verdict
    printed is "Result: " followed by the name of the status that
    [get_status] gives the value in the range from the entry's low to its
    high. *)
Theorem report_agrees_with_get_status (reply : string) (value : float)
    (ref : Checker.entry) :
  Py.dict_get (Checker.lower reply) Checker.reference_ranges = Some ref ->
  exists range_line,
    Checker.report reply value
    = Py.Return
        [ "Result: " +:+ status_value
            (ReferenceRange.get_status (Checker.as_range ref) (Py.Float value));
          range_line ].
Proof.
  intros H. destruct (checker_bounds_print _ _ H) as [Hlow Hhigh].
  unfold Checker.report. rewrite (dict_get_mem _ _ _ H), H.
  rewrite (prints_str _ Hlow), (prints_str _ Hhigh).
  eexists. f_equal. f_equal.
  rewrite get_status_cases. cbn [Checker.as_range ReferenceRange.critical_low
    ReferenceRange.critical_high ReferenceRange.min_value ReferenceRange.max_value].
  now destruct (Py.lt _ _); [|destruct (Py.gt _ _)].
Qed.

(** The theorem for a low hemoglobin typed in capitals. *)
Lemma report_agrees_with_get_status_for_hb :
  exists range_line,
    Checker.report "HB" 12.5
    = Py.Return
        [ "Result: " +:+ status_value
            (ReferenceRange.get_status
               (Checker.as_range
                  (Checker.mk (Py.Float 13.0) (Py.Float 17.0) "g/dL"))
               (Py.Float 12.5));
          range_line ].
Proof.
  exact (report_agrees_with_get_status "HB" 12.5
           (Checker.mk (Py.Float 13.0) (Py.Float 17.0) "g/dL") eq_refl).
Defined.

Lemma lower_upper_char (c : ascii) :
  Checker.lower_char (Checker.upper_char c) = Checker.lower_char c.
Proof.
  destruct c as [[] [] [] [] [] [] [] []]; reflexivity.
Qed.

Lemma lower_upper (s : string) : Checker.lower (Checker.upper s) = Checker.lower s.
Proof.
  induction s as [|c s IH]; simpl; [reflexivity|].
  now rewrite lower_upper_char, IH.
Qed.

(** X13. The script is blind to the case of the ASCII letters of the test
    name: a reply, the reply in lower case and the reply in capitals print
    the same lines. *)
Theorem report_ignores_case (reply : string) (value : float) :
  Checker.report (Checker.lower reply) value = Checker.report reply value
  /\ Checker.report (Checker.upper reply) value = Checker.report reply value.
Proof.
  unfold Checker.report. now rewrite lower_idempotent, lower_upper.
Qed.
